(** * IPL analytics dashboard: the query layer of [cricket_analytics_app.py]

    The script loads two tables (matches, ball-by-ball deliveries), derives a
    [year] column and a joined view, and computes a series of
    filter / group / aggregate / sort / head queries with pandas.  This file
    embeds the tables as lists of records, the pandas operations the script
    uses as list functions and the queries of the five tabs, and proves the
    specification's properties about them.  The charts and tables that
    render the results are left out.

    Conventions of the embedding:
    - a DataFrame is a [list] of row records, in row order;
    - a nullable column (NaN / NaT in pandas) has an [option] type;
    - integer columns are [Z]; the float columns the script computes
      (percentages, strike rate) are exact rationals [Q];
    - [sort_values] is a stable insertion sort: the script relies on no
      particular order among equal keys, and neither does any theorem here. *)

From Stdlib Require Import List ZArith String Bool Lia QArith.
From Stdlib Require Import Permutation Sorted.
Import ListNotations.

Local Open Scope string_scope.
Local Open Scope list_scope.
Local Open Scope Z_scope.

(** ** The pandas operations used by the script *)

Module Pandas.

Section Columns.
Context {A : Type}.

(** [Series.isin(values)] for a column with equality test [eqb]. *)
Definition isin (eqb : A -> A -> bool) (x : A) (values : list A) : bool :=
  existsb (eqb x) values.

(** [Series.unique()] / [DataFrame.drop_duplicates()]: the first occurrence
    of every value is kept, in order of appearance. *)
Fixpoint unique_aux (eqb : A -> A -> bool) (seen l : list A) : list A :=
  match l with
  | [] => []
  | x :: l' =>
      if isin eqb x seen then unique_aux eqb seen l'
      else x :: unique_aux eqb (x :: seen) l'
  end.

Definition unique (eqb : A -> A -> bool) (l : list A) : list A :=
  unique_aux eqb [] l.

(** Sorting by a boolean order [le]. *)
Fixpoint insert_by (le : A -> A -> bool) (x : A) (l : list A) : list A :=
  match l with
  | [] => [x]
  | y :: l' => if le x y then x :: l else y :: insert_by le x l'
  end.

Fixpoint sort_by (le : A -> A -> bool) (l : list A) : list A :=
  match l with
  | [] => []
  | x :: l' => insert_by le x (sort_by le l')
  end.

(** [DataFrame.head(n)]. *)
Definition head (n : nat) (l : list A) : list A := firstn n l.
End Columns.

Section GroupBy.
Context {R K : Type}.
Variable keqb : K -> K -> bool.
Variable kleb : K -> K -> bool.

(** [df.groupby(key)] with the default [sort=True]: one group per distinct
    key, groups in ascending key order, each group holding the rows of that
    key in their original order. *)
Definition groupby (key : R -> K) (rows : list R) : list (K * list R) :=
  map (fun k => (k, filter (fun r => keqb (key r) k) rows))
      (sort_by kleb (unique keqb (map key rows))).

(** [df.groupby(key).agg(...)]: one output row per group. *)
Definition agg {B : Type} (f : K -> list R -> B) (groups : list (K * list R))
  : list B :=
  map (fun g => f (fst g) (snd g)) groups.
End GroupBy.

(** [Series.sum()] of an integer column and of a boolean column. *)
Definition sum (l : list Z) : Z := fold_right Z.add 0 l.

Definition sum_bool (l : list bool) : Z :=
  sum (map (fun b : bool => if b then 1 else 0) l).

(** [Series.count()]: number of rows of a column without nulls. *)
Definition count {A : Type} (l : list A) : Z := Z.of_nat (List.length l).

(** [sort_values(ascending=False)] by an integer, respectively a rational,
    column. *)
Definition sort_values_desc {A : Type} (key : A -> Z) (l : list A) : list A :=
  sort_by (fun a b => key b <=? key a) l.

Definition sort_values_descQ {A : Type} (key : A -> Q) (l : list A) : list A :=
  sort_by (fun a b => Qle_bool (key b) (key a)) l.

(** [Series.value_counts()]: the distinct non-null values of the column with
    their number of occurrences, most frequent first. *)
Definition value_counts (col : list string) : list (string * Z) :=
  sort_values_desc snd
    (map (fun v => (v, count (filter (String.eqb v) col)))
         (unique String.eqb col)).

(** The non-null cells of a nullable column. *)
Fixpoint dropna {A : Type} (col : list (option A)) : list A :=
  match col with
  | [] => []
  | Some x :: col' => x :: dropna col'
  | None :: col' => dropna col'
  end.

(** [a == b] and [a != b] between a string cell and a nullable string cell:
    NaN equals nothing. *)
Definition eq_cell (a : string) (b : option string) : bool :=
  match b with
  | Some s => String.eqb a s
  | None => false
  end.

Definition ne_cell (a : string) (b : option string) : bool :=
  negb (eq_cell a b).

(** [col.isin(values)] on a nullable string column against string values. *)
Definition isin_cell (c : option string) (values : list string) : bool :=
  match c with
  | Some s => isin String.eqb s values
  | None => false
  end.

(** [col > n] and [col.between(lo, hi)] on a nullable integer column: a
    comparison with NaN is false. *)
Definition gt_cell (c : option Z) (n : Z) : bool :=
  match c with
  | Some v => n <? v
  | None => false
  end.

Definition between_cell (c : option Z) (lo hi : Z) : bool :=
  match c with
  | Some v => (lo <=? v) && (v <=? hi)
  | None => false
  end.

Section Merge.
Context {L R O : Type}.
Variable on : L -> R -> bool.

(** [left.merge(right, how='inner')]: one row per matching pair, in the order
    of the left rows. *)
Definition merge_inner (mk : L -> R -> O) (left : list L) (right : list R)
  : list O :=
  flat_map (fun l => map (mk l) (filter (on l) right)) left.

(** [left.merge(right, how='left')]: as the inner merge, and a left row
    without a partner is kept once, with a null right side. *)
Definition merge_left (mk : L -> option R -> O) (left : list L)
  (right : list R) : list O :=
  flat_map (fun l =>
              match filter (on l) right with
              | [] => [mk l None]
              | rs => map (fun r => mk l (Some r)) rs
              end) left.
End Merge.

End Pandas.

Import Pandas.

(** ** The two tables *)

(** A parsed calendar date ([pandas.Timestamp]); only [.dt.year] is read. *)
Record Timestamp := mkTimestamp {
  ts_year : Z;
  ts_month : Z;
  ts_day : Z
}.

(** A row of [matches.csv] as read by [pd.read_csv]. *)
Module Csv.
Record Match := mkMatch {
  id : Z;
  date : string;
  season : string;
  venue : string;
  team1 : string;
  team2 : string;
  toss_winner : string;
  toss_decision : string;
  winner : option string;
  result : string
}.
End Csv.

(** A row of [matches] after the preprocessing of [load_data]: [date] is
    parsed (NaT when it cannot be) and [year] is derived from it. *)
Record Match := mkMatch {
  id : Z;
  date : option Timestamp;
  year : option Z;
  season : string;
  venue : string;
  team1 : string;
  team2 : string;
  toss_winner : string;
  toss_decision : string;
  winner : option string;
  result : string
}.

(** A row of [deliveries.csv]. *)
Record Delivery := mkDelivery {
  match_id : Z;
  inning : Z;
  batting_team : string;
  batter : string;
  bowler : string;
  non_striker : string;
  batsman_runs : Z;
  total_runs : Z;
  ball : Z;
  is_wicket : Z;
  dismissal_kind : option string;
  fielder : option string
}.

(** A row of [merged_data]: the delivery's columns and the columns of its
    match, which are all null when the delivery has no match. *)
Record JoinedDelivery := mkJoined {
  jd_delivery : Delivery;
  jd_match : option Match
}.

(** ** Data loading *)

Section Loading.
(** [pd.to_datetime(..., errors='coerce')] on one cell: the parsed date, or
    NaT for a string it cannot parse.  The parser itself is pandas'. *)
Variable to_datetime : string -> option Timestamp.

Definition preprocess (m : Csv.Match) : Match :=
  let d := to_datetime (Csv.date m) in
  {| id := Csv.id m;
     date := d;
     year := option_map ts_year d;
     season := Csv.season m;
     venue := Csv.venue m;
     team1 := Csv.team1 m;
     team2 := Csv.team2 m;
     toss_winner := Csv.toss_winner m;
     toss_decision := Csv.toss_decision m;
     winner := Csv.winner m;
     result := Csv.result m |}.

Definition merge_deliveries (deliveries : list Delivery) (matches : list Match)
  : list JoinedDelivery :=
  merge_left (fun d m => match_id d =? id m) mkJoined deliveries matches.

(** [load_data]: a missing file ([None]) gives [None, None, None]; otherwise
    the preprocessed matches, the deliveries and their left join.  The
    inputs are the tables [pd.read_csv] returns: a file that exists and
    cannot be read as a table with the columns above makes [read_csv] or a
    column access raise, which [load_data] does not catch and this model
    does not cover. *)
Definition load_data (matches_csv : option (list Csv.Match))
  (deliveries_csv : option (list Delivery))
  : option (list Match * list Delivery * list JoinedDelivery) :=
  match matches_csv, deliveries_csv with
  | Some ms, Some deliveries =>
      let matches := map preprocess ms in
      Some (matches, deliveries, merge_deliveries deliveries matches)
  | _, _ => None
  end.
End Loading.

(** ** The dashboard queries *)

(** Rows of the derived frames. *)
Record StrikeRow := mkStrikeRow {
  sr_batter : string;
  sr_batsman_runs : Z;
  sr_ball : Z;
  strike_rate : Q
}.

Record VenueRow := mkVenueRow {
  vr_venue : string;
  total_matches : Z;
  bat_first_wins : Z;
  field_first_wins : Z;
  bat_first_win_pct : Q;
  field_first_win_pct : Q
}.

Record TossRow := mkTossRow {
  tr_venue : string;
  tr_matches : Z;
  tr_wins : Z;
  win_prob : Q
}.

Record TeamRow := mkTeamRow {
  team : string;
  matches_played : Z;
  team_wins : Z;
  team_win_pct : Q
}.

Record PlayerTeam := mkPlayerTeam {
  pt_match_id : Z;
  pt_player : string;
  pt_team : string
}.

Record VetPerf := mkVetPerf {
  vp_match_id : Z;
  vp_player : string;
  vp_team : string;
  vp_id : Z;
  vp_winner : option string;
  vp_bat_first_win : bool;
  vp_field_first_win : bool;
  won : bool
}.

Record VetPerfFull := mkVetPerfFull {
  vf_perf : VetPerf;
  vf_toss_winner : string;
  vf_toss_decision : string
}.

Record CoachRow := mkCoachRow {
  cr_player : string;
  cr_matches : Z;
  cr_wins : Z;
  cr_win_pct : Q
}.

(** [(a / b) * 100] on the float columns. *)
Definition pct (a b : Z) : Q := (inject_Z a / inject_Z b * 100)%Q.

(** [Series.mean()] of an integer column. *)
Definition mean (l : list Z) : Q := (inject_Z (sum l) / inject_Z (count l))%Q.

(** Equality and lexicographic order of the key of a two-column groupby. *)
Definition pair_eqb (a b : Z * Z) : bool :=
  (fst a =? fst b) && (snd a =? snd b).

Definition pair_leb (a b : Z * Z) : bool :=
  (fst a <? fst b) || ((fst a =? fst b) && (snd a <=? snd b)).

Definition player_team_eqb (a b : PlayerTeam) : bool :=
  (pt_match_id a =? pt_match_id b)
  && String.eqb (pt_player a) (pt_player b)
  && String.eqb (pt_team a) (pt_team b).

(** *** Stadium helpers *)

Definition bat_first_won (row : Match) : bool :=
  if isin String.eqb (result row) ["tie"; "no result"] then false
  else if String.eqb (toss_decision row) "bat"
       then eq_cell (toss_winner row) (winner row)
       else ne_cell (toss_winner row) (winner row).

Definition field_first_won (row : Match) : bool :=
  if isin String.eqb (result row) ["tie"; "no result"] then false
  else if String.eqb (toss_decision row) "field"
       then eq_cell (toss_winner row) (winner row)
       else ne_cell (toss_winner row) (winner row).

(** *** Coach helpers *)

(** The placeholder of the script; it is defined and never applied. *)
Definition is_chase_win (row : VetPerf) : bool :=
  if negb (won row) then false
  else false.

Definition check_chase (row : VetPerfFull) : bool :=
  if negb (won (vf_perf row)) then false
  else if String.eqb (vf_toss_decision row) "field"
          && String.eqb (vf_toss_winner row) (vp_team (vf_perf row))
       then true
  else if String.eqb (vf_toss_decision row) "bat"
          && negb (String.eqb (vf_toss_winner row) (vp_team (vf_perf row)))
       then true
  else false.

Section Dashboard.
Variable matches : list Match.
Variable deliveries : list Delivery.
Variable merged_data : list JoinedDelivery.

(** *** Helper: veterans (2008-2012) *)

Definition early_seasons : list Z :=
  unique Z.eqb
    (map id (filter (fun m => between_cell (year m) 2008 2012) matches)).

Definition early_players_bat : list string :=
  unique String.eqb
    (map batter
       (filter (fun d => isin Z.eqb (match_id d) early_seasons) deliveries)).

Definition early_players_bowl : list string :=
  unique String.eqb
    (map bowler
       (filter (fun d => isin Z.eqb (match_id d) early_seasons) deliveries)).

(** *** Tab 1: player stats *)

Definition post_2020_matches : list Z :=
  unique Z.eqb (map id (filter (fun m => gt_cell (year m) 2020) matches)).

Definition post_2020_data : list Delivery :=
  filter (fun d => isin Z.eqb (match_id d) post_2020_matches) deliveries.

(** FR1: top scoring batsmen post-2020 (excl. veterans). *)
Definition fr1_data : list Delivery :=
  filter (fun d => negb (isin String.eqb (batter d) early_players_bat))
    post_2020_data.

Definition runs_by_batter (data : list Delivery) : list (string * Z) :=
  agg (fun k g => (k, sum (map batsman_runs g)))
    (groupby String.eqb String.leb batter data).

Definition top_scorers : list (string * Z) :=
  head 10 (sort_values_desc snd (runs_by_batter fr1_data)).

(** FR2: power hitters (strike rate). *)
Definition stats_agg : list (string * Z * Z) :=
  agg (fun k g => (k, sum (map batsman_runs g), count (map ball g)))
    (groupby String.eqb String.leb batter post_2020_data).

Definition stats : list StrikeRow :=
  map (fun s => let '(k, runs, balls) := s in
                mkStrikeRow k runs balls (pct runs balls))
    (filter (fun s => 50 <=? snd s) stats_agg).

Definition top_sr : list StrikeRow :=
  head 10 (sort_values_descQ strike_rate stats).

(** FR3: top fielders by catches (all time). *)
Definition catches : list Delivery :=
  filter (fun d => eq_cell "caught" (dismissal_kind d)) deliveries.

Definition top_fielders : list (string * Z) :=
  head 10 (value_counts (dropna (map fielder catches))).

(** FR4: top bowlers post-2020 (excl. veterans). *)
Definition not_bowler_wicket : list string :=
  ["run out"; "retired hurt"; "obstructing the field"].

Definition bowler_wickets (data : list Delivery) : list Delivery :=
  filter (fun d => negb (isin_cell (dismissal_kind d) not_bowler_wicket))
    (filter (fun d => is_wicket d =? 1) data).

Definition fr4_data : list Delivery :=
  filter (fun d => negb (isin String.eqb (bowler d) early_players_bowl))
    post_2020_data.

Definition wickets : list Delivery := bowler_wickets fr4_data.

Definition top_bowlers : list (string * Z) :=
  head 10 (value_counts (map bowler wickets)).

(** *** Tab 2: stadium stats *)

(** The columns [bat_first_win] and [field_first_win] added to [matches]. *)
Definition bat_first_win (m : Match) : bool := bat_first_won m.
Definition field_first_win (m : Match) : bool := field_first_won m.

(** FR5 and FR7: win probability by stadium (min 10 matches). *)
Definition venue_groups : list (string * list Match) :=
  groupby String.eqb String.leb venue matches.

Definition venue_stats_agg : list (string * Z * Z * Z) :=
  agg (fun k g => (k, count (map id g),
                   sum_bool (map bat_first_win g),
                   sum_bool (map field_first_win g)))
    venue_groups.

Definition venue_stats : list VenueRow :=
  map (fun s => let '(k, total, bat, field) := s in
                mkVenueRow k total bat field (pct bat total) (pct field total))
    (filter (fun s => let '(_, total, _, _) := s in 10 <=? total)
       venue_stats_agg).

(** FR6: toss impact. *)
Definition toss_win_match_win (m : Match) : bool :=
  eq_cell (toss_winner m) (winner m).

Definition toss_impact : list TossRow :=
  map (fun s => let '(k, n, w) := s in mkTossRow k n w (pct w n))
    (filter (fun s => 10 <=? snd (fst s))
       (agg (fun k g => (k, count (map id g),
                         sum_bool (map toss_win_match_win g)))
          venue_groups)).

Definition top_toss_venues : list TossRow :=
  head 10 (sort_values_descQ win_prob toss_impact).

(** FR8: average total runs, batting first against batting second. *)
Definition inning_scores : list (Z * Z * Z) :=
  agg (fun k g => (fst k, snd k,
                   sum (map (fun j => total_runs (jd_delivery j)) g)))
    (groupby pair_eqb pair_leb
       (fun j => (match_id (jd_delivery j), inning (jd_delivery j)))
       merged_data).

Definition avg_scores : list (Z * Q) :=
  filter (fun s => isin Z.eqb (fst s) [1; 2])
    (agg (fun k g => (k, mean (map snd g)))
       (groupby Z.eqb Z.leb (fun s => snd (fst s)) inning_scores)).

(** *** Tab 3: team stats *)

(** FR9: team winning % post-2020. *)
Definition recent_matches : list Match :=
  filter (fun m => gt_cell (year m) 2020) matches.

Definition team_stats : list (string * Z) :=
  value_counts (map team1 recent_matches ++ map team2 recent_matches).

Definition wins : list (string * Z) :=
  value_counts (dropna (map winner recent_matches)).

Definition team_perf : list TeamRow :=
  sort_values_descQ team_win_pct
    (map (fun s =>
            let w := match find (fun x => String.eqb (fst x) (fst s)) wins with
                     | Some x => snd x
                     | None => 0
                     end in
            mkTeamRow (fst s) (snd s) w (pct w (snd s)))
       team_stats).

(** FR10: highest successful run chases (all time).  The filter is that of
    a matches table with rows; on a table without rows the script's
    row-wise [apply] yields a frame without columns and the merge below
    raises, which ends the run there.  That table is outside this
    definition and is excluded wherever a statement depends on it. *)
Definition chase_wins : list Match := filter field_first_won matches.

Definition inn1_runs : list (Z * Z) :=
  agg (fun k g => (k, sum (map (fun j => total_runs (jd_delivery j)) g)))
    (groupby Z.eqb Z.leb (fun j => match_id (jd_delivery j))
       (filter (fun j => inning (jd_delivery j) =? 1) merged_data)).

Definition chases : list (Match * Z) :=
  merge_inner (fun m r => id m =? fst r) (fun m r => (m, snd r))
    chase_wins inn1_runs.

Definition top_chases : list (Match * Z) :=
  head 10 (sort_values_desc snd chases).

(** *** Tab 4: veteran stats *)

Definition fr1_vet_data : list Delivery :=
  filter (fun d => isin String.eqb (batter d) early_players_bat)
    post_2020_data.

Definition top_vet_scorers : list (string * Z) :=
  head 10 (sort_values_desc snd (runs_by_batter fr1_vet_data)).

Definition fr4_vet_data : list Delivery :=
  filter (fun d => isin String.eqb (bowler d) early_players_bowl)
    post_2020_data.

Definition vet_wickets : list Delivery := bowler_wickets fr4_vet_data.

Definition top_vet_bowlers : list (string * Z) :=
  head 10 (value_counts (map bowler vet_wickets)).

(** *** Tab 5: coach stats *)

(** [set(early_players_bat) | set(early_players_bowl)]; the set is only
    tested for membership. *)
Definition all_veterans : list string :=
  early_players_bat ++ early_players_bowl.

Definition batters : list PlayerTeam :=
  unique player_team_eqb
    (map (fun d => mkPlayerTeam (match_id d) (batter d) (batting_team d))
       deliveries).

Definition player_teams : list PlayerTeam := batters.

Definition vet_teams : list PlayerTeam :=
  filter (fun t => isin String.eqb (pt_player t) all_veterans) player_teams.

Definition vet_perf : list VetPerf :=
  merge_inner (fun t m => pt_match_id t =? id m)
    (fun t m =>
       mkVetPerf (pt_match_id t) (pt_player t) (pt_team t) (id m) (winner m)
         (bat_first_win m) (field_first_win m)
         (eq_cell (pt_team t) (winner m)))
    vet_teams matches.

Definition vet_groups : list (string * list VetPerf) :=
  groupby String.eqb String.leb vp_player vet_perf.

(** FR9 (coach): veteran win % (min 50 matches). *)
Definition vet_win_stats : list CoachRow :=
  map (fun s => let '(k, n, w) := s in mkCoachRow k n w (pct w n))
    (filter (fun s => 50 <=? snd (fst s))
       (agg (fun k g => (k, count (map vp_id g), sum_bool (map won g)))
          vet_groups)).


(** FR10 (coach): successful run chases. *)
Definition vet_perf_full : list VetPerfFull :=
  merge_inner (fun v m => vp_id v =? id m)
    (fun v m => mkVetPerfFull v (toss_winner m) (toss_decision m))
    vet_perf matches.

Definition chase_win (row : VetPerfFull) : bool := check_chase row.

Definition chase_groups : list (string * list VetPerfFull) :=
  groupby String.eqb String.leb (fun r => vp_player (vf_perf r))
    vet_perf_full.

Definition chase_stats : list (string * Z) :=
  head 10
    (sort_values_desc snd
       (agg (fun k g => (k, sum_bool (map chase_win g))) chase_groups)).

(** FR11 (coach): experience. *)
Definition experience : list (string * Z) :=
  head 10
    (sort_values_desc snd
       (agg (fun k g => (k, count (map vp_id g))) vet_groups)).

End Dashboard.

(** ** Auxiliary predicates *)

(** An undecided match: [result] is "tie" or "no result", the test that opens
    [bat_first_won] and [field_first_won]. *)
Definition undecided (row : Match) : bool :=
  isin String.eqb (result row) ["tie"; "no result"].

(** ** Example tables *)

(** The second scenario row of the specification: A won the toss and chose
    to field, B won. *)
Definition scenario_match_2 : Match :=
  {| id := 2; date := None; year := None; season := ""; venue := "";
     team1 := "A"; team2 := "B";
     toss_winner := "A"; toss_decision := "field";
     winner := Some "B"; result := "normal" |}.

(** The first scenario row of the specification, and a tied match. *)
Definition scenario_match_1 : Match :=
  {| id := 1; date := Some (mkTimestamp 2021 4 9); year := Some 2021;
     season := "2021"; venue := "";
     team1 := "A"; team2 := "B";
     toss_winner := "A"; toss_decision := "bat";
     winner := Some "A"; result := "normal" |}.

Definition tied_match : Match :=
  {| id := 3; date := None; year := None; season := ""; venue := "";
     team1 := "A"; team2 := "B";
     toss_winner := "A"; toss_decision := "bat";
     winner := None; result := "tie" |}.

(** A decided match whose toss_decision cell holds another word. *)
Definition bowl_match : Match :=
  {| id := 4; date := None; year := None; season := ""; venue := "";
     team1 := "A"; team2 := "B";
     toss_winner := "A"; toss_decision := "bowl";
     winner := Some "B"; result := "normal" |}.

(** A 2009 match and a 2021 match, and four deliveries: P bats and X bowls
    in 2009; in 2021 X bats, P bats and bowls, and two newcomers N and M
    play. *)
Definition match_2009 : Match :=
  {| id := 1; date := Some (mkTimestamp 2009 4 18); year := Some 2009;
     season := "2009"; venue := "Newlands";
     team1 := "A"; team2 := "B";
     toss_winner := "A"; toss_decision := "bat";
     winner := Some "A"; result := "normal" |}.

Definition match_2021 : Match :=
  {| id := 2; date := Some (mkTimestamp 2021 4 9); year := Some 2021;
     season := "2021"; venue := "Chepauk";
     team1 := "A"; team2 := "B";
     toss_winner := "B"; toss_decision := "field";
     winner := Some "B"; result := "normal" |}.

Definition delivery_2009 : Delivery :=
  {| match_id := 1; inning := 1; batting_team := "A";
     batter := "P"; bowler := "X"; non_striker := "Q";
     batsman_runs := 4; total_runs := 4; ball := 1;
     is_wicket := 0; dismissal_kind := None; fielder := None |}.

Definition delivery_2021_x : Delivery :=
  {| match_id := 2; inning := 1; batting_team := "A";
     batter := "X"; bowler := "P"; non_striker := "N";
     batsman_runs := 6; total_runs := 6; ball := 1;
     is_wicket := 1; dismissal_kind := Some "bowled"; fielder := None |}.

Definition delivery_2021_n : Delivery :=
  {| match_id := 2; inning := 1; batting_team := "A";
     batter := "N"; bowler := "M"; non_striker := "X";
     batsman_runs := 4; total_runs := 5; ball := 2;
     is_wicket := 1; dismissal_kind := Some "caught"; fielder := Some "F" |}.

Definition delivery_2021_p : Delivery :=
  {| match_id := 2; inning := 2; batting_team := "B";
     batter := "P"; bowler := "X"; non_striker := "M";
     batsman_runs := 1; total_runs := 1; ball := 1;
     is_wicket := 0; dismissal_kind := None; fielder := None |}.

Definition example_matches : list Match := [match_2009; match_2021].

Definition example_deliveries : list Delivery :=
  [delivery_2009; delivery_2021_x; delivery_2021_n; delivery_2021_p].

(** The row of [vet_perf_full] for P in the 2021 match. *)
Definition chase_row_p : VetPerfFull :=
  {| vf_perf := {| vp_match_id := 2; vp_player := "P"; vp_team := "B";
                   vp_id := 2; vp_winner := Some "B";
                   vp_bat_first_win := false; vp_field_first_win := true;
                   won := true |};
     vf_toss_winner := "B"; vf_toss_decision := "field" |}.

(** The row of [vet_perf] for X, who bowls in 2009 and bats in 2021. *)
Definition perf_row_x : VetPerf :=
  {| vp_match_id := 2; vp_player := "X"; vp_team := "A";
     vp_id := 2; vp_winner := Some "B";
     vp_bat_first_win := false; vp_field_first_win := true;
     won := false |}.



(** Ten matches at one venue: nine won by the side batting first and one
    tie. *)
Definition venue_matches : list Match :=
  map (fun i => {| id := Z.of_nat i; date := None; year := None;
                   season := ""; venue := "Wankhede";
                   team1 := "A"; team2 := "B";
                   toss_winner := "A"; toss_decision := "bat";
                   winner := Some "A"; result := "normal" |})
    (seq 1 9)
  ++ [ {| id := 10; date := None; year := None;
          season := ""; venue := "Wankhede";
          team1 := "A"; team2 := "B";
          toss_winner := "A"; toss_decision := "field";
          winner := None; result := "tie" |} ].

Definition venue_row : VenueRow :=
  {| vr_venue := "Wankhede"; total_matches := 10;
     bat_first_wins := 9; field_first_wins := 0;
     bat_first_win_pct := pct 9 10; field_first_win_pct := pct 0 10 |}.

(** A date parser for ISO dates (YYYY-MM-DD) only, to run [load_data] on
    examples. *)
Definition digit (c : Ascii.ascii) : option Z :=
  let n := Z.of_nat (Ascii.nat_of_ascii c) in
  if (48 <=? n) && (n <=? 57) then Some (n - 48) else None.

Fixpoint number (s : string) (acc : Z) : option Z :=
  match s with
  | EmptyString => Some acc
  | String c s' =>
      match digit c with
      | Some d => number s' (10 * acc + d)
      | None => None
      end
  end.

Definition iso_date (s : string) : option Timestamp :=
  if Nat.eqb (String.length s) 10
     && String.eqb (substring 4 1 s) "-"
     && String.eqb (substring 7 1 s) "-"
  then
    match number (substring 0 4 s) 0, number (substring 5 2 s) 0,
          number (substring 8 2 s) 0 with
    | Some y, Some m, Some d =>
        if (1 <=? m) && (m <=? 12) && (1 <=? d) && (d <=? 31)
        then Some (mkTimestamp y m d)
        else None
    | _, _, _ => None
    end
  else None.

(** Two rows of [matches.csv]: one with an ISO date and one whose date cell
    is not a date. *)
Definition csv_match_2021 : Csv.Match :=
  {| Csv.id := 2; Csv.date := "2021-04-09"; Csv.season := "2021";
     Csv.venue := "Chepauk"; Csv.team1 := "A"; Csv.team2 := "B";
     Csv.toss_winner := "B"; Csv.toss_decision := "field";
     Csv.winner := Some "B"; Csv.result := "normal" |}.

Definition csv_match_undated : Csv.Match :=
  {| Csv.id := 1; Csv.date := "not a date"; Csv.season := "2009";
     Csv.venue := "Newlands"; Csv.team1 := "A"; Csv.team2 := "B";
     Csv.toss_winner := "A"; Csv.toss_decision := "field";
     Csv.winner := Some "A"; Csv.result := "normal" |}.

Definition example_csv : list Csv.Match := [csv_match_undated; csv_match_2021].


(** A matches file in which two rows share an id: the undated row and a
    dated row of 2021. *)
Definition csv_match_2021_same_id : Csv.Match :=
  {| Csv.id := 1; Csv.date := "2021-04-09"; Csv.season := "2021";
     Csv.venue := "Chepauk"; Csv.team1 := "A"; Csv.team2 := "B";
     Csv.toss_winner := "B"; Csv.toss_decision := "field";
     Csv.winner := Some "B"; Csv.result := "normal" |}.

Definition shared_id_csv : list Csv.Match :=
  [csv_match_undated; csv_match_2021_same_id].

(** * Properties *)

(** ** Facts about the pandas operations *)

Module PandasFacts.

Section EqColumns.
Context {A : Type}.
Variable eqb : A -> A -> bool.
Hypothesis eqb_eq : forall x y, eqb x y = true <-> x = y.

Lemma isin_In (x : A) (l : list A) : isin eqb x l = true <-> In x l.
Proof.
  unfold isin. rewrite existsb_exists. split.
  - intros [y [Hy He]]. apply eqb_eq in He. now subst.
  - intros H. exists x. split; [assumption | now apply eqb_eq].
Qed.

Lemma isin_not_In (x : A) (l : list A) : isin eqb x l = false <-> ~ In x l.
Proof.
  rewrite <- isin_In. destruct (isin eqb x l); split; congruence.
Qed.

Lemma In_unique_aux (x : A) (l seen : list A) :
  In x (unique_aux eqb seen l) <-> In x l /\ ~ In x seen.
Proof.
  revert seen. induction l as [|y l IH]; intros seen; simpl.
  - tauto.
  - destruct (isin eqb y seen) eqn:E.
    + apply isin_In in E. rewrite IH. split.
      * tauto.
      * intros [[->|H] Hn]; tauto.
    + apply isin_not_In in E. simpl. rewrite IH. simpl. split.
      * intros [->|[H Hn]]; tauto.
      * intros [[->|H] Hn]; [now left|].
        destruct (eqb y x) eqn:Ex.
        -- apply eqb_eq in Ex. now left.
        -- right. split; [assumption|]. intros [->|Hs]; [|tauto].
           assert (eqb x x = true) by now apply eqb_eq. congruence.
Qed.

Lemma In_unique (x : A) (l : list A) : In x (unique eqb l) <-> In x l.
Proof. unfold unique. rewrite In_unique_aux. simpl. tauto. Qed.

Lemma NoDup_unique_aux (l seen : list A) : NoDup (unique_aux eqb seen l).
Proof.
  revert seen. induction l as [|y l IH]; intros seen; simpl.
  - constructor.
  - destruct (isin eqb y seen); [apply IH|].
    constructor; [|apply IH].
    rewrite In_unique_aux. simpl. tauto.
Qed.

Lemma NoDup_unique (l : list A) : NoDup (unique eqb l).
Proof. apply NoDup_unique_aux. Qed.
End EqColumns.

Section Sorting.
Context {A : Type}.
Variable le : A -> A -> bool.

Lemma insert_by_perm (x : A) (l : list A) :
  Permutation (insert_by le x l) (x :: l).
Proof.
  induction l as [|y l IH]; simpl.
  - reflexivity.
  - destruct (le x y); [reflexivity|].
    rewrite IH. apply perm_swap.
Qed.

Lemma sort_by_perm (l : list A) : Permutation (sort_by le l) l.
Proof.
  induction l as [|x l IH]; simpl.
  - reflexivity.
  - rewrite insert_by_perm. now constructor.
Qed.

Lemma In_sort_by (x : A) (l : list A) : In x (sort_by le l) <-> In x l.
Proof.
  split; apply Permutation_in;
    [apply sort_by_perm | symmetry; apply sort_by_perm].
Qed.

Lemma NoDup_sort_by (l : list A) : NoDup l -> NoDup (sort_by le l).
Proof.
  apply Permutation_NoDup. symmetry. apply sort_by_perm.
Qed.

Hypothesis le_total : forall x y, le x y = true \/ le y x = true.
Hypothesis le_trans :
  forall x y z, le x y = true -> le y z = true -> le x z = true.

Lemma insert_by_sorted (x : A) (l : list A) :
  StronglySorted (fun a b => le a b = true) l ->
  StronglySorted (fun a b => le a b = true) (insert_by le x l).
Proof.
  induction 1 as [|y l Hs IH Hall]; simpl.
  - repeat constructor.
  - destruct (le x y) eqn:E.
    + constructor; [now constructor|].
      constructor; [assumption|].
      rewrite Forall_forall in *. intros z Hz. eapply le_trans; eauto.
    + constructor; [assumption|].
      rewrite Forall_forall in *. intros z Hz.
      apply (Permutation_in _ (insert_by_perm x l)) in Hz.
      destruct Hz as [<-|Hz]; [|auto].
      destruct (le_total x y); congruence.
Qed.

Lemma sort_by_sorted (l : list A) :
  StronglySorted (fun a b => le a b = true) (sort_by le l).
Proof.
  induction l; simpl; [constructor | now apply insert_by_sorted].
Qed.
End Sorting.

Section Heads.
Context {A : Type}.

Lemma head_In (n : nat) (x : A) (l : list A) : In x (head n l) -> In x l.
Proof.
  unfold head. intros H. rewrite <- (firstn_skipn n l).
  apply in_or_app. now left.
Qed.

Lemma head_length (n : nat) (l : list A) : (List.length (head n l) <= n)%nat.
Proof. apply firstn_le_length. Qed.

Lemma head_sorted (R : A -> A -> Prop) (n : nat) (l : list A) :
  StronglySorted R l -> StronglySorted R (head n l).
Proof.
  unfold head. intros H. revert n.
  induction H as [|x l Hs IH Hall]; intros [|n]; simpl; try constructor.
  - apply IH.
  - rewrite Forall_forall in *. intros y Hy. apply Hall.
    now apply (head_In n).
Qed.

(** What [head] leaves out ranks no higher than what it keeps. *)
Lemma head_top (R : A -> A -> Prop) (n : nat) (l : list A) (x y : A) :
  StronglySorted R l ->
  In x (head n l) -> In y l -> ~ In y (head n l) -> R x y.
Proof.
  unfold head. intros Hs. revert n.
  induction Hs as [|z l Hs IH Hall]; intros n Hx Hy Hny.
  - destruct n; contradiction.
  - destruct n as [|n]; simpl in *; [contradiction|].
    destruct Hy as [->|Hy]; [tauto|].
    destruct Hx as [->|Hx].
    + rewrite Forall_forall in Hall. now apply Hall.
    + apply (IH n); tauto.
Qed.

Lemma head_NoDup (n : nat) (l : list A) : NoDup l -> NoDup (head n l).
Proof.
  unfold head. intros H. revert n.
  induction H as [|x l Hx Hnd IH]; intros [|n]; simpl; try constructor.
  - intros Hin. apply Hx. now apply (head_In n).
  - apply IH.
Qed.
End Heads.

Section Grouping.
Context {R K : Type}.
Variable keqb : K -> K -> bool.
Variable kleb : K -> K -> bool.
Hypothesis keqb_eq : forall x y, keqb x y = true <-> x = y.
Variable key : R -> K.

(** A group is the sub-frame of the rows carrying its key, and there is a
    group for exactly the keys that occur. *)
Lemma In_groupby (rows : list R) (k : K) (g : list R) :
  In (k, g) (groupby keqb kleb key rows) <->
  In k (map key rows) /\ g = filter (fun r => keqb (key r) k) rows.
Proof.
  unfold groupby. rewrite in_map_iff. split.
  - intros [k' [E Hk]]. inversion E; subst.
    rewrite In_sort_by, (In_unique keqb keqb_eq) in Hk. now split.
  - intros [Hk ->]. exists k. split; [reflexivity|].
    now rewrite In_sort_by, (In_unique keqb keqb_eq).
Qed.

Lemma groupby_keys (rows : list R) :
  map fst (groupby keqb kleb key rows)
  = sort_by kleb (unique keqb (map key rows)).
Proof.
  unfold groupby. rewrite map_map. simpl. apply map_id.
Qed.

Lemma NoDup_groupby_keys (rows : list R) :
  NoDup (map fst (groupby keqb kleb key rows)).
Proof.
  rewrite groupby_keys. apply NoDup_sort_by, (NoDup_unique keqb keqb_eq).
Qed.

Lemma group_rows (rows : list R) (k : K) (g : list R) (r : R) :
  In (k, g) (groupby keqb kleb key rows) ->
  In r g <-> In r rows /\ key r = k.
Proof.
  rewrite In_groupby. intros [_ ->]. rewrite filter_In.
  now rewrite keqb_eq.
Qed.

Lemma group_nonempty (rows : list R) (k : K) (g : list R) :
  In (k, g) (groupby keqb kleb key rows) -> exists r, In r g.
Proof.
  intros H. pose proof H as H'. apply In_groupby in H' as [Hk _].
  apply in_map_iff in Hk as [r [E Hr]]. exists r.
  apply (group_rows rows k g r H). now split.
Qed.

Lemma In_agg {B : Type} (f : K -> list R -> B) (rows : list R) (b : B) :
  In b (agg f (groupby keqb kleb key rows)) <->
  exists k, In k (map key rows)
            /\ b = f k (filter (fun r => keqb (key r) k) rows).
Proof.
  unfold agg. rewrite in_map_iff. split.
  - intros [[k g] [E H]]. apply In_groupby in H as [Hk ->].
    exists k. simpl in E. now split.
  - intros [k [Hk ->]].
    exists (k, filter (fun r => keqb (key r) k) rows).
    split; [reflexivity|]. now apply In_groupby.
Qed.
End Grouping.

Lemma string_eqb_eq (x y : string) : String.eqb x y = true <-> x = y.
Proof. apply String.eqb_eq. Qed.

Lemma Z_eqb_eq (x y : Z) : (x =? y) = true <-> x = y.
Proof. apply Z.eqb_eq. Qed.

Lemma In_value_counts (col : list string) (v : string) (n : Z) :
  In (v, n) (value_counts col) <->
  In v col /\ n = count (filter (String.eqb v) col).
Proof.
  unfold value_counts, sort_values_desc.
  rewrite In_sort_by, in_map_iff. split.
  - intros [v' [E H]]. inversion E; subst.
    now rewrite (In_unique String.eqb string_eqb_eq) in H.
  - intros [H ->]. exists v. split; [reflexivity|].
    now rewrite (In_unique String.eqb string_eqb_eq).
Qed.

Lemma In_dropna {A : Type} (col : list (option A)) (x : A) :
  In x (dropna col) <-> In (Some x) col.
Proof.
  induction col as [|[y|] col IH]; simpl.
  - tauto.
  - rewrite IH. split; intros [H|H]; auto; left; congruence.
  - rewrite IH. split; [auto|]. intros [H|H]; [discriminate|assumption].
Qed.

Lemma Zle_desc_total {A : Type} (key : A -> Z) (x y : A) :
  (key y <=? key x) = true \/ (key x <=? key y) = true.
Proof. rewrite !Z.leb_le. lia. Qed.

Lemma Zle_desc_trans {A : Type} (key : A -> Z) (x y z : A) :
  (key y <=? key x) = true -> (key z <=? key y) = true ->
  (key z <=? key x) = true.
Proof. rewrite !Z.leb_le. lia. Qed.

Lemma Qle_desc_total {A : Type} (key : A -> Q) (x y : A) :
  Qle_bool (key y) (key x) = true \/ Qle_bool (key x) (key y) = true.
Proof.
  rewrite !Qle_bool_iff.
  destruct (Qlt_le_dec (key x) (key y)) as [H|H]; [right|left];
    auto using Qlt_le_weak.
Qed.

Lemma Qle_desc_trans {A : Type} (key : A -> Q) (x y z : A) :
  Qle_bool (key y) (key x) = true -> Qle_bool (key z) (key y) = true ->
  Qle_bool (key z) (key x) = true.
Proof.
  rewrite !Qle_bool_iff. intros H1 H2. now apply Qle_trans with (key y).
Qed.

(** [sort_values(ascending=False)] returns its rows, reordered, largest key
    first. *)
Lemma sort_values_desc_sorted {A : Type} (key : A -> Z) (l : list A) :
  StronglySorted (fun a b => key b <= key a) (sort_values_desc key l).
Proof.
  unfold sort_values_desc.
  eapply StronglySorted_ind with
    (P := StronglySorted (fun a b => key b <= key a));
    [constructor | | apply sort_by_sorted].
  - intros a l' _ IH Hall. constructor; [assumption|].
    eapply Forall_impl; [|exact Hall].
    intros b Hb. now apply Z.leb_le.
  - apply Zle_desc_total.
  - apply Zle_desc_trans.
Qed.

Lemma sort_values_descQ_sorted {A : Type} (key : A -> Q) (l : list A) :
  StronglySorted (fun a b => (key b <= key a)%Q) (sort_values_descQ key l).
Proof.
  unfold sort_values_descQ.
  eapply StronglySorted_ind with
    (P := StronglySorted (fun a b => (key b <= key a)%Q));
    [constructor | | apply sort_by_sorted].
  - intros a l' _ IH Hall. constructor; [assumption|].
    eapply Forall_impl; [|exact Hall].
    intros b Hb. now apply Qle_bool_iff.
  - apply Qle_desc_total.
  - apply Qle_desc_trans.
Qed.

End PandasFacts.

Import PandasFacts.

(** ** Match outcome classification *)

Lemma undecided_In (row : Match) :
  undecided row = true <-> In (result row) ["tie"; "no result"].
Proof. apply (isin_In String.eqb string_eqb_eq). Qed.

Lemma undecided_not_In (row : Match) :
  undecided row = false <-> ~ In (result row) ["tie"; "no result"].
Proof. apply (isin_not_In String.eqb string_eqb_eq). Qed.

Lemma first_won_undecided (row : Match) :
  undecided row = true ->
  bat_first_won row = false /\ field_first_won row = false.
Proof.
  unfold undecided, bat_first_won, field_first_won. intros ->. now split.
Qed.

Lemma first_won_decided_bat (row : Match) :
  undecided row = false -> toss_decision row = "bat" ->
  bat_first_won row = eq_cell (toss_winner row) (winner row)
  /\ field_first_won row = ne_cell (toss_winner row) (winner row).
Proof.
  unfold undecided, bat_first_won, field_first_won. intros -> ->. now split.
Qed.

Lemma first_won_decided_field (row : Match) :
  undecided row = false -> toss_decision row = "field" ->
  bat_first_won row = ne_cell (toss_winner row) (winner row)
  /\ field_first_won row = eq_cell (toss_winner row) (winner row).
Proof.
  unfold undecided, bat_first_won, field_first_won. intros -> ->. now split.
Qed.

Lemma first_won_decided_other (row : Match) :
  undecided row = false ->
  toss_decision row <> "bat" -> toss_decision row <> "field" ->
  bat_first_won row = ne_cell (toss_winner row) (winner row)
  /\ field_first_won row = ne_cell (toss_winner row) (winner row).
Proof.
  unfold undecided, bat_first_won, field_first_won. intros -> Hb Hf.
  apply String.eqb_neq in Hb, Hf. rewrite Hb, Hf. now split.
Qed.

(** C2, as stated, fails: on the scenario row [field_first_won] does not
    return true. *)
Lemma field_first_won_scenario_2_not_true :
  toss_winner scenario_match_2 = "A"
  /\ toss_decision scenario_match_2 = "field"
  /\ winner scenario_match_2 = Some "B"
  /\ result scenario_match_2 = "normal"
  /\ field_first_won scenario_match_2 <> true.
Proof. repeat split. discriminate. Qed.

(** C2 (amended): on every match row with toss_winner "A", toss_decision
    "field", winner "B" and result "normal", [field_first_won] returns
    false: the toss winner fielded first and lost. *)
Theorem field_first_won_scenario_2 (row : Match) :
  toss_winner row = "A" -> toss_decision row = "field" ->
  winner row = Some "B" -> result row = "normal" ->
  field_first_won row = false.
Proof.
  intros Ht Hd Hw Hr. unfold field_first_won.
  rewrite Hr, Hd, Ht, Hw. reflexivity.
Qed.

Lemma field_first_won_scenario_2_witness :
  field_first_won scenario_match_2 = false.
Proof. apply field_first_won_scenario_2; reflexivity. Defined.

(** On the same rows the other classification holds: the side that batted
    first won. *)
Lemma bat_first_won_scenario_2 (row : Match) :
  toss_winner row = "A" -> toss_decision row = "field" ->
  winner row = Some "B" -> result row = "normal" ->
  bat_first_won row = true.
Proof.
  intros Ht Hd Hw Hr. unfold bat_first_won.
  rewrite Hr, Hd, Ht, Hw. reflexivity.
Qed.

(** C3: on a match row whose result is neither "tie" nor "no result" and
    whose toss_decision is "bat" or "field", exactly one of [bat_first_won]
    and [field_first_won] is true (whatever the winner cell holds, so in
    particular when it is non-empty); on a row whose result is "tie" or
    "no result" both are false. *)
Theorem first_won_exactly_one (row : Match) :
  (~ In (result row) ["tie"; "no result"] ->
   toss_decision row = "bat" \/ toss_decision row = "field" ->
   (bat_first_won row = true /\ field_first_won row = false)
   \/ (bat_first_won row = false /\ field_first_won row = true))
  /\ (In (result row) ["tie"; "no result"] ->
      bat_first_won row = false /\ field_first_won row = false).
Proof.
  split.
  - intros Hr Hd. apply undecided_not_In in Hr.
    destruct Hd as [Hd|Hd];
      [destruct (first_won_decided_bat row Hr Hd) as [-> ->]
      |destruct (first_won_decided_field row Hr Hd) as [-> ->]];
      unfold ne_cell; destruct (eq_cell (toss_winner row) (winner row));
      simpl; auto.
  - intros Hr. apply first_won_undecided. now apply undecided_In.
Qed.

Lemma first_won_exactly_one_witness :
  ((bat_first_won scenario_match_1 = true
    /\ field_first_won scenario_match_1 = false)
   \/ (bat_first_won scenario_match_1 = false
       /\ field_first_won scenario_match_1 = true))
  /\ (bat_first_won tied_match = false /\ field_first_won tied_match = false).
Proof.
  split.
  - apply (first_won_exactly_one scenario_match_1).
    + simpl. intros [H|[H|[]]]; discriminate.
    + left. reflexivity.
  - apply (first_won_exactly_one tied_match). simpl. left. reflexivity.
Defined.

(** C10: on a match row whose result is neither "tie" nor "no result" and
    whose toss_decision is neither "bat" nor "field", both classifications
    return [toss_winner != winner]; so when the toss winner is not the
    winner both are true at once. *)
Theorem first_won_other_decision (row : Match) :
  ~ In (result row) ["tie"; "no result"] ->
  toss_decision row <> "bat" -> toss_decision row <> "field" ->
  bat_first_won row = ne_cell (toss_winner row) (winner row)
  /\ field_first_won row = ne_cell (toss_winner row) (winner row)
  /\ (ne_cell (toss_winner row) (winner row) = true ->
      bat_first_won row = true /\ field_first_won row = true).
Proof.
  intros Hr Hb Hf. apply undecided_not_In in Hr.
  destruct (first_won_decided_other row Hr Hb Hf) as [E1 E2].
  rewrite E1, E2. auto.
Qed.

Lemma first_won_other_decision_witness :
  bat_first_won bowl_match = true /\ field_first_won bowl_match = true.
Proof.
  apply (first_won_other_decision bowl_match).
  - simpl. intros [H|[H|[]]]; discriminate.
  - discriminate.
  - discriminate.
  - reflexivity.
Defined.

(** ** Chase wins *)

Lemma is_chase_win_false (row : VetPerf) : is_chase_win row = false.
Proof. unfold is_chase_win. now destruct (won row). Qed.

Lemma In_vet_perf_full (matches : list Match) (deliveries : list Delivery)
  (row : VetPerfFull) :
  In row (vet_perf_full matches deliveries) <->
  exists v m, In v (vet_perf matches deliveries) /\ In m matches
              /\ vp_id v = id m
              /\ row = mkVetPerfFull v (toss_winner m) (toss_decision m).
Proof.
  unfold vet_perf_full, merge_inner. rewrite in_flat_map. split.
  - intros [v [Hv H]]. apply in_map_iff in H as [m [E Hm]].
    apply filter_In in Hm as [Hm Hid]. apply Z.eqb_eq in Hid.
    exists v, m. auto.
  - intros [v [m [Hv [Hm [Hid ->]]]]]. exists v. split; [assumption|].
    apply in_map_iff. exists m. split; [reflexivity|].
    apply filter_In. split; [assumption | now apply Z.eqb_eq].
Qed.

Lemma In_vet_perf (matches : list Match) (deliveries : list Delivery)
  (row : VetPerf) :
  In row (vet_perf matches deliveries) <->
  exists t m, In t (vet_teams matches deliveries) /\ In m matches
              /\ pt_match_id t = id m
              /\ row = mkVetPerf (pt_match_id t) (pt_player t) (pt_team t)
                         (id m) (winner m) (bat_first_win m)
                         (field_first_win m) (eq_cell (pt_team t) (winner m)).
Proof.
  unfold vet_perf, merge_inner. rewrite in_flat_map. split.
  - intros [t [Ht H]]. apply in_map_iff in H as [m [E Hm]].
    apply filter_In in Hm as [Hm Hid]. apply Z.eqb_eq in Hid.
    exists t, m. auto.
  - intros [t [m [Ht [Hm [Hid ->]]]]]. exists t. split; [assumption|].
    apply in_map_iff. exists m. split; [reflexivity|].
    apply filter_In. split; [assumption | now apply Z.eqb_eq].
Qed.

(** C4: the classification the veteran successful-chases query applies to
    each of its rows is [check_chase], which is true exactly when the
    player's team won and batted second: (toss_decision is "field" and the
    toss winner is the team) or (toss_decision is "bat" and the toss winner
    is not the team).  The placeholder [is_chase_win], false on every row,
    takes no part in the result. *)
Theorem check_chase_iff :
  (forall row : VetPerfFull,
      chase_win row = true <->
      won (vf_perf row) = true
      /\ ((vf_toss_decision row = "field"
           /\ vf_toss_winner row = vp_team (vf_perf row))
          \/ (vf_toss_decision row = "bat"
              /\ vf_toss_winner row <> vp_team (vf_perf row))))
  /\ (forall matches deliveries row,
         In row (vet_perf_full matches deliveries) ->
         won (vf_perf row) = true <->
         vp_winner (vf_perf row) = Some (vp_team (vf_perf row)))
  /\ (forall matches deliveries player n,
         In (player, n) (chase_stats matches deliveries) ->
         n = sum_bool
               (map check_chase
                  (filter (fun r => String.eqb (vp_player (vf_perf r)) player)
                     (vet_perf_full matches deliveries))))
  /\ (forall row : VetPerf, is_chase_win row = false).
Proof.
  split; [|split; [|split; [|exact is_chase_win_false]]].
  - intros row. unfold chase_win, check_chase.
    destruct (won (vf_perf row)); simpl; [|split; [discriminate|tauto]].
    destruct (String.eqb_spec (vf_toss_decision row) "field") as [Ef|Ef];
      destruct (String.eqb_spec (vf_toss_winner row) (vp_team (vf_perf row)))
        as [Et|Et]; simpl.
    + tauto.
    + rewrite Ef. simpl. split; [discriminate|].
      intros [_ [[_ H]|[H _]]]; [contradiction|discriminate].
    + destruct (String.eqb (vf_toss_decision row) "bat"); simpl;
        (split; [discriminate|]); intros [_ [[H _]|[_ H]]]; contradiction.
    + destruct (String.eqb_spec (vf_toss_decision row) "bat") as [Eb|Eb];
        simpl; [tauto|].
      split; [discriminate|]. intros [_ [[H _]|[H _]]]; contradiction.
  - intros matches deliveries row H.
    apply In_vet_perf_full in H as [v [m [Hv [_ [_ ->]]]]]. simpl.
    apply In_vet_perf in Hv as [t [m' [_ [_ [_ ->]]]]]. simpl.
    unfold eq_cell. destruct (winner m') as [w|]; [|split; discriminate].
    rewrite String.eqb_eq. split; [now intros ->|congruence].
  - intros matches deliveries player n H.
    unfold chase_stats in H. apply head_In in H.
    unfold sort_values_desc in H. apply In_sort_by in H.
    unfold chase_groups in H.
    apply (In_agg String.eqb String.leb string_eqb_eq) in H
      as [k [_ E]].
    inversion E; subst. reflexivity.
Qed.

(** ** The joined view *)

Lemma merge_left_row (ms : list Match) (d : Delivery) :
  NoDup (map id ms) ->
  exists o, merge_deliveries [d] ms = [mkJoined d o]
            /\ (o = None <-> forall m, In m ms -> id m <> match_id d).
Proof.
  intros Hnd. unfold merge_deliveries, merge_left. simpl.
  rewrite app_nil_r.
  induction ms as [|m ms IH]; simpl.
  - exists None. split; [reflexivity|]. split; [contradiction|reflexivity].
  - simpl in Hnd. inversion Hnd as [|? ? Hm Hnd']; subst.
    destruct (IH Hnd') as [o [E Ho]].
    destruct (Z.eqb_spec (match_id d) (id m)) as [Eid|Eid].
    + assert (Hnone : filter (fun m0 => match_id d =? id m0) ms = []).
      { clear - Hm Eid. induction ms as [|m' ms IH]; simpl; [reflexivity|].
        simpl in Hm. destruct (Z.eqb_spec (match_id d) (id m')) as [E'|E'].
        - exfalso. apply Hm. left. congruence.
        - apply IH. tauto. }
      rewrite Hnone. simpl. exists (Some m). split; [reflexivity|].
      split; [discriminate|]. intros H. exfalso.
      apply (H m); [now left | congruence].
    + exists o. split; [exact E|]. rewrite Ho. split.
      * intros H m' [<-|Hm']; [congruence | now apply H].
      * intros H m' Hm'. apply H. now right.
Qed.

Lemma merge_deliveries_cons (d : Delivery) (ds : list Delivery)
  (ms : list Match) :
  merge_deliveries (d :: ds) ms
  = merge_deliveries [d] ms ++ merge_deliveries ds ms.
Proof.
  unfold merge_deliveries, merge_left. simpl. now rewrite app_nil_r.
Qed.

Lemma In_merge_deliveries (ds : list Delivery) (ms : list Match)
  (j : JoinedDelivery) :
  In j (merge_deliveries ds ms) <->
  exists d, In d ds /\ In j (merge_deliveries [d] ms).
Proof.
  unfold merge_deliveries, merge_left. rewrite in_flat_map. simpl.
  split; intros [d [Hd H]]; exists d; split; auto.
  - now rewrite app_nil_r.
  - now rewrite app_nil_r in H.
Qed.

(** C9: when the match ids are unique, the join has exactly one row per
    delivery row, in the order of the deliveries; the row of a delivery
    whose match_id is no match's id carries null match columns, and the row
    of a delivery with a match carries that match. *)
Theorem merged_data_one_row_per_delivery (deliveries : list Delivery)
  (matches : list Match) :
  NoDup (map id matches) ->
  map jd_delivery (merge_deliveries deliveries matches) = deliveries
  /\ List.length (merge_deliveries deliveries matches)
     = List.length deliveries
  /\ (forall d, In d deliveries ->
                (forall m, In m matches -> id m <> match_id d) ->
                In (mkJoined d None) (merge_deliveries deliveries matches))
  /\ (forall d m, In d deliveries -> In m matches -> id m = match_id d ->
                  In (mkJoined d (Some m))
                    (merge_deliveries deliveries matches)).
Proof.
  intros Hnd.
  assert (Hmap : map jd_delivery (merge_deliveries deliveries matches)
                 = deliveries).
  { induction deliveries as [|d ds IH]; [reflexivity|].
    rewrite merge_deliveries_cons, map_app, IH.
    destruct (merge_left_row matches d Hnd) as [o [-> _]]. reflexivity. }
  split; [exact Hmap|]. split; [|split].
  - rewrite <- Hmap at 2. now rewrite length_map.
  - intros d Hd Hno. apply In_merge_deliveries. exists d.
    split; [assumption|].
    destruct (merge_left_row matches d Hnd) as [o [-> Ho]].
    apply Ho in Hno. subst. now left.
  - intros d m Hd Hm Hid. apply In_merge_deliveries. exists d.
    split; [assumption|].
    unfold merge_deliveries, merge_left. simpl. rewrite app_nil_r.
    assert (Hin : In m (filter (fun m0 => match_id d =? id m0) matches)).
    { apply filter_In. split; [assumption|]. apply Z.eqb_eq. congruence. }
    destruct (filter (fun m0 => match_id d =? id m0) matches) as [|m0 rs];
      [contradiction|].
    exact (in_map (fun r => mkJoined d (Some r)) _ _ Hin).
Qed.

(** ** Venue win probabilities *)

Lemma sum_bool_cons (b : bool) (l : list bool) :
  sum_bool (b :: l) = (if b then 1 else 0) + sum_bool l.
Proof. reflexivity. Qed.

Lemma count_cons {A : Type} (x : A) (l : list A) :
  count (x :: l) = 1 + count l.
Proof. unfold count. simpl List.length. lia. Qed.

Lemma count_nonneg {A : Type} (l : list A) : 0 <= count l.
Proof. unfold count. lia. Qed.

Lemma count_map {A B : Type} (f : A -> B) (l : list A) :
  count (map f l) = count l.
Proof. unfold count. now rewrite length_map. Qed.

Lemma count_zero {A : Type} (l : list A) : count l = 0 <-> l = [].
Proof.
  destruct l; [now split|]. rewrite count_cons.
  pose proof (count_nonneg l). split; [lia|discriminate].
Qed.

(** With a toss decision of "bat" or "field" on every row, each decided
    match is a win for exactly one side. *)
Lemma first_wins_count (g : list Match) :
  (forall m, In m g -> toss_decision m = "bat" \/ toss_decision m = "field") ->
  sum_bool (map bat_first_win g) + sum_bool (map field_first_win g)
  + count (filter undecided g) = count g.
Proof.
  induction g as [|m g IH]; intros Hd; [reflexivity|].
  simpl map. simpl filter. rewrite !sum_bool_cons, count_cons.
  assert (IH' := IH (fun m' H => Hd m' (or_intror H))).
  unfold bat_first_win, field_first_win in *.
  destruct (undecided m) eqn:Eu.
  - destruct (first_won_undecided m Eu) as [-> ->].
    rewrite count_cons. lia.
  - destruct (Hd m (or_introl eq_refl)) as [E|E];
      [destruct (first_won_decided_bat m Eu E) as [-> ->]
      |destruct (first_won_decided_field m Eu E) as [-> ->]];
      unfold ne_cell; destruct (eq_cell (toss_winner m) (winner m));
      simpl negb; cbv iota; lia.
Qed.

Lemma In_venue_stats (matches : list Match) (v : VenueRow) :
  In v (venue_stats matches) <->
  exists k, In k (map venue matches)
    /\ 10 <= count (filter (fun m => String.eqb (venue m) k) matches)
    /\ v = let g := filter (fun m => String.eqb (venue m) k) matches in
           mkVenueRow k (count (map id g))
             (sum_bool (map bat_first_win g))
             (sum_bool (map field_first_win g))
             (pct (sum_bool (map bat_first_win g)) (count (map id g)))
             (pct (sum_bool (map field_first_win g)) (count (map id g))).
Proof.
  unfold venue_stats, venue_stats_agg, venue_groups.
  rewrite in_map_iff. split.
  - intros [[[[k total] bat] field] [E H]].
    apply filter_In in H as [H Hmin]. apply Z.leb_le in Hmin.
    apply (In_agg String.eqb String.leb string_eqb_eq) in H
      as [k' [Hk E']].
    inversion E'; subst. exists k'. rewrite count_map in Hmin. auto.
  - intros [k [Hk [Hmin ->]]].
    set (g := filter (fun m => String.eqb (venue m) k) matches).
    exists (k, count (map id g), sum_bool (map bat_first_win g),
            sum_bool (map field_first_win g)).
    split; [reflexivity|]. apply filter_In. split.
    + apply (In_agg String.eqb String.leb string_eqb_eq).
      exists k. now split.
    + apply Z.leb_le. now rewrite count_map.
Qed.

(** C6: when every match has toss_decision "bat" or "field", every row of
    the venue win-probability table (total_matches is at least 10) has
    bat_first_wins + field_first_wins <= total_matches, with equality
    exactly when no match at that venue has result "tie" or "no result". *)
Theorem venue_wins_le_total (matches : list Match) (v : VenueRow) :
  (forall m, In m matches ->
             toss_decision m = "bat" \/ toss_decision m = "field") ->
  In v (venue_stats matches) ->
  10 <= total_matches v
  /\ bat_first_wins v + field_first_wins v <= total_matches v
  /\ (bat_first_wins v + field_first_wins v = total_matches v <->
      forall m, In m matches -> venue m = vr_venue v ->
                ~ In (result m) ["tie"; "no result"]).
Proof.
  intros Hd Hv. apply In_venue_stats in Hv as [k [_ [Hmin ->]]].
  set (g := filter (fun m => String.eqb (venue m) k) matches) in *.
  cbv zeta. simpl. rewrite count_map.
  assert (Hg : forall m, In m g <-> In m matches /\ venue m = k).
  { intros m. unfold g. rewrite filter_In, String.eqb_eq. tauto. }
  assert (Hsum := first_wins_count g
                    (fun m H => Hd m (proj1 (proj1 (Hg m) H)))).
  pose proof (count_nonneg (filter undecided g)) as Hnn.
  split; [assumption|]. split; [lia|]. split.
  - intros E m Hm Hk. apply undecided_not_In.
    assert (Hz : filter undecided g = []) by (apply count_zero; lia).
    destruct (undecided m) eqn:Eu; [|reflexivity].
    assert (Hin : In m (filter undecided g)).
    { apply filter_In. split; [now apply Hg | assumption]. }
    rewrite Hz in Hin. contradiction.
  - intros H.
    assert (Hz : filter undecided g = []).
    { destruct (filter undecided g) as [|m l] eqn:Ef; [reflexivity|].
      assert (Hin : In m (filter undecided g)) by (rewrite Ef; now left).
      apply filter_In in Hin as [Hin Hu]. apply Hg in Hin as [Hin Hk].
      apply undecided_In in Hu. exfalso. now apply (H m). }
    rewrite Hz in Hsum. change (count (@nil Match)) with 0 in Hsum. lia.
Qed.

(** ** The player-team map of the coach tab *)

Lemma player_team_eqb_eq (a b : PlayerTeam) :
  player_team_eqb a b = true <-> a = b.
Proof.
  unfold player_team_eqb. rewrite !andb_true_iff, Z.eqb_eq, !String.eqb_eq.
  destruct a, b; simpl. split.
  - intros [[-> ->] ->]. reflexivity.
  - intros E. inversion E. auto.
Qed.

Lemma In_batters (deliveries : list Delivery) (t : PlayerTeam) :
  In t (batters deliveries) <->
  exists d, In d deliveries
            /\ t = mkPlayerTeam (match_id d) (batter d) (batting_team d).
Proof.
  unfold batters. rewrite (In_unique _ player_team_eqb_eq), in_map_iff.
  split; intros [d [H1 H2]]; exists d; auto.
Qed.

(** Every row of [vet_perf] stems from a delivery in which the player
    batted, and carries that delivery's batting team. *)
Lemma vet_perf_batting_row (matches : list Match) (deliveries : list Delivery)
  (row : VetPerf) :
  In row (vet_perf matches deliveries) ->
  exists d, In d deliveries
            /\ match_id d = vp_match_id row
            /\ batter d = vp_player row
            /\ batting_team d = vp_team row.
Proof.
  intros H. apply In_vet_perf in H as [t [m [Ht [_ [_ ->]]]]]. simpl.
  unfold vet_teams, player_teams in Ht. apply filter_In in Ht as [Ht _].
  apply In_batters in Ht as [d [Hd ->]]. exists d. simpl. auto.
Qed.

Lemma vet_perf_full_batting_row (matches : list Match)
  (deliveries : list Delivery) (row : VetPerfFull) :
  In row (vet_perf_full matches deliveries) ->
  In (vf_perf row) (vet_perf matches deliveries).
Proof.
  intros H. apply In_vet_perf_full in H as [v [m [Hv [_ [_ ->]]]]].
  exact Hv.
Qed.


(** ** Veteran filters *)

Lemma In_early_seasons (matches : list Match) (i : Z) :
  In i (early_seasons matches) <->
  exists m y, In m matches /\ id m = i /\ year m = Some y
              /\ 2008 <= y <= 2012.
Proof.
  unfold early_seasons.
  rewrite (In_unique Z.eqb Z_eqb_eq), in_map_iff. split.
  - intros [m [E H]]. apply filter_In in H as [Hm Hy].
    unfold between_cell in Hy. destruct (year m) as [y|] eqn:Ey;
      [|discriminate].
    apply andb_true_iff in Hy as [H1 H2]. apply Z.leb_le in H1, H2.
    exists m, y. auto.
  - intros [m [y [Hm [E [Ey Hy]]]]]. exists m. split; [assumption|].
    apply filter_In. split; [assumption|].
    unfold between_cell. rewrite Ey.
    apply andb_true_iff. rewrite !Z.leb_le. lia.
Qed.

Lemma In_early_players_bat (matches : list Match) (deliveries : list Delivery)
  (p : string) :
  In p (early_players_bat matches deliveries) <->
  exists d, In d deliveries /\ batter d = p
            /\ In (match_id d) (early_seasons matches).
Proof.
  unfold early_players_bat.
  rewrite (In_unique String.eqb string_eqb_eq), in_map_iff.
  split; intros [d H]; exists d; rewrite filter_In in *;
    rewrite (isin_In Z.eqb Z_eqb_eq) in *; tauto.
Qed.

Lemma In_early_players_bowl (matches : list Match) (deliveries : list Delivery)
  (p : string) :
  In p (early_players_bowl matches deliveries) <->
  exists d, In d deliveries /\ bowler d = p
            /\ In (match_id d) (early_seasons matches).
Proof.
  unfold early_players_bowl.
  rewrite (In_unique String.eqb string_eqb_eq), in_map_iff.
  split; intros [d H]; exists d; rewrite filter_In in *;
    rewrite (isin_In Z.eqb Z_eqb_eq) in *; tauto.
Qed.

Lemma In_runs_by_batter (data : list Delivery) (p : string) (n : Z) :
  In (p, n) (runs_by_batter data) <->
  In p (map batter data)
  /\ n = sum (map batsman_runs
                (filter (fun d => String.eqb (batter d) p) data)).
Proof.
  unfold runs_by_batter.
  rewrite (In_agg String.eqb String.leb string_eqb_eq). split.
  - intros [k [Hk E]]. inversion E; subst. now split.
  - intros [Hk ->]. exists p. now split.
Qed.

Lemma top_scorers_batter (matches : list Match) (deliveries : list Delivery)
  (p : string) :
  In p (map fst (top_scorers matches deliveries)) ->
  exists d, In d (fr1_data matches deliveries) /\ batter d = p.
Proof.
  intros H. apply in_map_iff in H as [[p' n] [E H]]. simpl in E. subst p'.
  unfold top_scorers in H. apply head_In in H.
  unfold sort_values_desc in H. apply In_sort_by in H.
  apply In_runs_by_batter in H as [H _].
  apply in_map_iff in H as [d [E H]]. now exists d.
Qed.

Lemma top_bowlers_bowler (matches : list Match) (deliveries : list Delivery)
  (p : string) :
  In p (map fst (top_bowlers matches deliveries)) ->
  exists d, In d (fr4_data matches deliveries) /\ bowler d = p.
Proof.
  intros H. apply in_map_iff in H as [[p' n] [E H]]. simpl in E. subst p'.
  unfold top_bowlers in H. apply head_In in H.
  apply In_value_counts in H as [H _].
  apply in_map_iff in H as [d [E H]]. exists d. split; [|assumption].
  unfold wickets, bowler_wickets in H.
  apply filter_In in H as [H _]. now apply filter_In in H as [H _].
Qed.

(** C1 (amended): the veteran filters go by role.  A player who batted in a
    delivery of a 2008-2012 match never appears in the result of the
    exclude-veteran batting query and passes the filter of its veteran-only
    variant; a player who bowled in such a delivery never appears in the
    result of the exclude-veteran bowling query and passes the filter of its
    veteran-only variant.  A player who did not bat in 2008-2012 (one who only
    bowled then, for instance) is not removed by the filter of the
    exclude-veteran batting query. *)
Theorem veteran_filters_by_role (matches : list Match)
  (deliveries : list Delivery) (p : string) :
  ((exists d m y, In d deliveries /\ In m matches /\ id m = match_id d
                  /\ year m = Some y /\ 2008 <= y <= 2012 /\ batter d = p) ->
   ~ In p (map fst (top_scorers matches deliveries))
   /\ forall d, In d (post_2020_data matches deliveries) -> batter d = p ->
                In d (fr1_vet_data matches deliveries))
  /\ ((exists d m y, In d deliveries /\ In m matches /\ id m = match_id d
                     /\ year m = Some y /\ 2008 <= y <= 2012 /\ bowler d = p) ->
      ~ In p (map fst (top_bowlers matches deliveries))
      /\ forall d, In d (post_2020_data matches deliveries) -> bowler d = p ->
                   In d (fr4_vet_data matches deliveries))
  /\ ((forall d m y, In d deliveries -> In m matches -> id m = match_id d ->
                     year m = Some y -> 2008 <= y <= 2012 -> batter d <> p) ->
      forall d, In d (post_2020_data matches deliveries) -> batter d = p ->
                In d (fr1_data matches deliveries)).
Proof.
  split; [|split].
  - intros [d [m [y [Hd [Hm [Eid [Ey [Hy Hb]]]]]]]].
    assert (Hv : In p (early_players_bat matches deliveries)).
    { apply In_early_players_bat. exists d. repeat split; try assumption.
      apply In_early_seasons. exists m, y. auto. }
    split.
    + intros Hin. apply top_scorers_batter in Hin as [d' [Hd' Hb']].
      unfold fr1_data in Hd'. apply filter_In in Hd' as [_ Hn].
      apply negb_true_iff, (isin_not_In String.eqb string_eqb_eq) in Hn.
      congruence.
    + intros d' Hd' Hb'. unfold fr1_vet_data. apply filter_In.
      split; [assumption|].
      apply (isin_In String.eqb string_eqb_eq). congruence.
  - intros [d [m [y [Hd [Hm [Eid [Ey [Hy Hb]]]]]]]].
    assert (Hv : In p (early_players_bowl matches deliveries)).
    { apply In_early_players_bowl. exists d. repeat split; try assumption.
      apply In_early_seasons. exists m, y. auto. }
    split.
    + intros Hin. apply top_bowlers_bowler in Hin as [d' [Hd' Hb']].
      unfold fr4_data in Hd'. apply filter_In in Hd' as [_ Hn].
      apply negb_true_iff, (isin_not_In String.eqb string_eqb_eq) in Hn.
      congruence.
    + intros d' Hd' Hb'. unfold fr4_vet_data. apply filter_In.
      split; [assumption|].
      apply (isin_In String.eqb string_eqb_eq). congruence.
  - intros Hnb d Hd Hb. unfold fr1_data. apply filter_In.
    split; [assumption|].
    apply negb_true_iff, (isin_not_In String.eqb string_eqb_eq).
    rewrite Hb. intros Hin.
    apply In_early_players_bat in Hin as [d' [Hd' [Hb' Hs]]].
    apply In_early_seasons in Hs as [m [y [Hm [Eid [Ey Hy]]]]].
    now apply (Hnb d' m y).
Qed.

(** ** Power hitters *)


(** Filtering a frame whose key column has no duplicates leaves a key column
    without duplicates. *)
Lemma distinct_keys_filter {R K : Type} (key : R -> K) (keep : R -> bool)
  (rows : list R) (Hkeys : NoDup (map key rows)) :
  NoDup (map key (filter keep rows)).
Proof.
  induction rows as [|r rows IH]; [constructor|].
  simpl in Hkeys. apply NoDup_cons_iff in Hkeys as [Hr Hrest].
  simpl. destruct (keep r); [|now apply IH].
  simpl. apply NoDup_cons_iff. split; [|now apply IH].
  contradict Hr. apply in_map_iff in Hr as [x [E Hx]].
  apply in_map_iff. exists x. split; [assumption|].
  now apply filter_In in Hx.
Qed.



(** ** Matches without a year *)

Lemma NoDup_map_eq {A B : Type} (f : A -> B) (l : list A) (x y : A) :
  NoDup (map f l) -> In x l -> In y l -> f x = f y -> x = y.
Proof.
  induction l as [|a l IH]; simpl; intros Hnd Hx Hy E; [contradiction|].
  inversion Hnd as [|? ? Ha Hnd']; subst.
  destruct Hx as [->|Hx], Hy as [->|Hy]; auto.
  - exfalso. apply Ha. rewrite E. now apply in_map.
  - exfalso. apply Ha. rewrite <- E. now apply in_map.
Qed.

Lemma filter_filter_implied {A : Type} (p q : A -> bool) (l : list A) :
  (forall x, In x l -> p x = true -> q x = true) ->
  filter p (filter q l) = filter p l.
Proof.
  induction l as [|a l IH]; intros H; [reflexivity|]. simpl.
  assert (IH' := IH (fun x Hx => H x (or_intror Hx))).
  destruct (q a) eqn:Eq; simpl.
  - now rewrite IH'.
  - destruct (p a) eqn:Ep; [|exact IH'].
    rewrite (H a (or_introl eq_refl) Ep) in Eq. discriminate.
Qed.

Lemma In_post_2020_matches (matches : list Match) (i : Z) :
  In i (post_2020_matches matches) <->
  exists m y, In m matches /\ id m = i /\ year m = Some y /\ 2020 < y.
Proof.
  unfold post_2020_matches.
  rewrite (In_unique Z.eqb Z_eqb_eq), in_map_iff. split.
  - intros [m [E H]]. apply filter_In in H as [Hm Hy].
    unfold gt_cell in Hy. destruct (year m) as [y|] eqn:Ey; [|discriminate].
    apply Z.ltb_lt in Hy. exists m, y. auto.
  - intros [m [y [Hm [E [Ey Hy]]]]]. exists m. split; [assumption|].
    apply filter_In. split; [assumption|].
    unfold gt_cell. rewrite Ey. now apply Z.ltb_lt.
Qed.

Lemma In_post_2020_data (matches : list Match) (deliveries : list Delivery)
  (d : Delivery) :
  In d (post_2020_data matches deliveries) <->
  In d deliveries
  /\ exists m y, In m matches /\ id m = match_id d /\ year m = Some y
                 /\ 2020 < y.
Proof.
  unfold post_2020_data.
  now rewrite filter_In, (isin_In Z.eqb Z_eqb_eq), In_post_2020_matches.
Qed.

Lemma In_venue_groups (matches : list Match) (m : Match) :
  In m matches ->
  exists g, In (venue m, g) (venue_groups matches) /\ In m g.
Proof.
  intros Hm. exists (filter (fun r => String.eqb (venue r) (venue m)) matches).
  split.
  - apply (In_groupby String.eqb String.leb string_eqb_eq).
    split; [now apply in_map | reflexivity].
  - apply filter_In. split; [assumption | apply String.eqb_refl].
Qed.

Lemma In_chases (matches : list Match) (merged_data : list JoinedDelivery)
  (m : Match) (target : Z) :
  In (m, target) (chases matches merged_data) <->
  In m matches /\ field_first_won m = true
  /\ In (id m, target) (inn1_runs merged_data).
Proof.
  unfold chases, merge_inner, chase_wins. rewrite in_flat_map. split.
  - intros [m' [Hm' H]]. apply in_map_iff in H as [[i t] [E H]].
    simpl in E. inversion E; subst. apply filter_In in H as [H Hid].
    simpl in Hid. apply Z.eqb_eq in Hid. subst i.
    apply filter_In in Hm' as [Hm Hf]. auto.
  - intros [Hm [Hf Hin]]. exists m. split.
    + apply filter_In. now split.
    + apply in_map_iff. exists (id m, target). split; [reflexivity|].
      apply filter_In. split; [assumption|]. simpl. apply Z.eqb_refl.
Qed.

Lemma merged_has_delivery (deliveries : list Delivery) (matches : list Match)
  (d : Delivery) :
  In d deliveries ->
  exists j, In j (merge_deliveries deliveries matches) /\ jd_delivery j = d.
Proof.
  intros Hd.
  assert (H : exists j, In j (merge_deliveries [d] matches)
                        /\ jd_delivery j = d).
  { unfold merge_deliveries, merge_left. simpl. rewrite app_nil_r.
    destruct (filter (fun m => match_id d =? id m) matches) as [|m rs].
    - eexists. split; [now left | reflexivity].
    - eexists. split; [now left | reflexivity]. }
  destruct H as [j [Hj E]]. exists j. split; [|exact E].
  apply In_merge_deliveries. now exists d.
Qed.

Lemma inn1_runs_key (merged_data : list JoinedDelivery) (j : JoinedDelivery) :
  In j merged_data -> inning (jd_delivery j) = 1 ->
  exists target, In (match_id (jd_delivery j), target) (inn1_runs merged_data).
Proof.
  intros Hj Hi. eexists. unfold inn1_runs.
  apply (In_agg Z.eqb Z.leb Z_eqb_eq).
  exists (match_id (jd_delivery j)). split; [|reflexivity].
  apply in_map_iff. exists j. split; [reflexivity|].
  apply filter_In. split; [assumption | now apply Z.eqb_eq].
Qed.


(** ** The theorems on the example tables *)

(** C1, as stated, fails.  X only bowled in 2009, so X is in the veteran set,
    yet X is in the result of the exclude-veteran batting query and X's 2021
    delivery does not pass the filter of the veteran-only variant. *)
Lemma bowling_veteran_among_top_scorers :
  In "X" (all_veterans example_matches example_deliveries)
  /\ In "X" (map bowler
               (filter (fun d => isin Z.eqb (match_id d)
                                   (early_seasons example_matches))
                  example_deliveries))
  /\ In "X" (map fst (top_scorers example_matches example_deliveries))
  /\ In delivery_2021_x (post_2020_data example_matches example_deliveries)
  /\ batter delivery_2021_x = "X"
  /\ ~ In delivery_2021_x (fr1_vet_data example_matches example_deliveries).
Proof.
  vm_compute. repeat split; auto.
  intros [H|[]]. discriminate.
Qed.

Lemma veteran_filters_by_role_witness :
  (~ In "P" (map fst (top_scorers example_matches example_deliveries))
   /\ forall d, In d (post_2020_data example_matches example_deliveries) ->
                batter d = "P" ->
                In d (fr1_vet_data example_matches example_deliveries))
  /\ (~ In "X" (map fst (top_bowlers example_matches example_deliveries))
      /\ forall d, In d (post_2020_data example_matches example_deliveries) ->
                   bowler d = "X" ->
                   In d (fr4_vet_data example_matches example_deliveries))
  /\ (forall d, In d (post_2020_data example_matches example_deliveries) ->
                batter d = "X" ->
                In d (fr1_data example_matches example_deliveries)).
Proof.
  split; [|split].
  - apply (veteran_filters_by_role example_matches example_deliveries "P").
    exists delivery_2009, match_2009, 2009.
    simpl. repeat split; auto; lia.
  - apply (veteran_filters_by_role example_matches example_deliveries "X").
    exists delivery_2009, match_2009, 2009.
    simpl. repeat split; auto; lia.
  - apply (veteran_filters_by_role example_matches example_deliveries "X").
    intros d m y Hd Hm Eid Ey Hy.
    simpl in Hm. destruct Hm as [<-|[<-|[]]]; simpl in Ey, Eid.
    + simpl in Hd.
      destruct Hd as [<-|[<-|[<-|[<-|[]]]]]; simpl in Eid;
        discriminate.
    + inversion Ey; subst. lia.
Defined.

Lemma check_chase_iff_witness :
  chase_win chase_row_p = true
  /\ vp_winner (vf_perf chase_row_p) = Some (vp_team (vf_perf chase_row_p))
  /\ 1 = sum_bool
           (map check_chase
              (filter (fun r => String.eqb (vp_player (vf_perf r)) "P")
                 (vet_perf_full example_matches example_deliveries))).
Proof.
  destruct check_chase_iff as [H1 [H2 [H3 _]]]. split; [|split].
  - apply H1. simpl. split; [reflexivity|]. left. now split.
  - apply (H2 example_matches example_deliveries chase_row_p).
    + vm_compute. auto.
    + reflexivity.
  - apply (H3 example_matches example_deliveries "P" 1).
    vm_compute. auto.
Defined.


Lemma venue_wins_le_total_witness :
  10 <= total_matches venue_row
  /\ bat_first_wins venue_row + field_first_wins venue_row
     <= total_matches venue_row
  /\ (bat_first_wins venue_row + field_first_wins venue_row
      = total_matches venue_row <->
      forall m, In m venue_matches -> venue m = vr_venue venue_row ->
                ~ In (result m) ["tie"; "no result"]).
Proof.
  apply (venue_wins_le_total venue_matches venue_row).
  - apply Forall_forall. unfold venue_matches. simpl.
    repeat (apply Forall_cons; [simpl; auto|]). apply Forall_nil.
  - vm_compute. auto.
Defined.


Lemma merged_data_one_row_per_delivery_witness :
  map jd_delivery (merge_deliveries example_deliveries [match_2021])
  = example_deliveries
  /\ In (mkJoined delivery_2009 None)
       (merge_deliveries example_deliveries [match_2021]).
Proof.
  assert (Hnd : NoDup (map id [match_2021])).
  { simpl. constructor; [simpl; tauto | constructor]. }
  destruct (merged_data_one_row_per_delivery example_deliveries [match_2021]
              Hnd) as [H1 [_ [H3 _]]].
  split; [exact H1|].
  apply H3.
  - simpl. auto.
  - intros m [<-|[]]. simpl. discriminate.
Defined.


(** * Further properties of the queries *)

(** ** More facts about the pandas operations *)

Lemma pct_bounds (a b : Z) :
  0 <= a <= b -> 0 < b -> (0 <= pct a b /\ pct a b <= 100)%Q.
Proof.
  intros Ha Hb. destruct b as [|p|p]; try lia.
  unfold pct, Qdiv, Qmult, Qinv, Qle, inject_Z.
  cbn [Qnum Qden]. rewrite !Pos2Z.inj_mul. split; lia.
Qed.



Lemma sum_cons (x : Z) (l : list Z) : sum (x :: l) = x + sum l.
Proof. reflexivity. Qed.


Lemma sum_perm (l1 l2 : list Z) : Permutation l1 l2 -> sum l1 = sum l2.
Proof.
  unfold sum. induction 1; simpl; lia.
Qed.

Lemma sum_bool_bounds (l : list bool) : 0 <= sum_bool l <= count l.
Proof.
  induction l as [|b l IH]; [unfold sum_bool, count; simpl; lia|].
  rewrite sum_bool_cons, count_cons. destruct b; lia.
Qed.

Section GroupTotals.
Context {R K : Type}.
Variable keqb : K -> K -> bool.
Variable kleb : K -> K -> bool.
Hypothesis keqb_eq : forall x y, keqb x y = true <-> x = y.
Variable key : R -> K.
Variable w : R -> Z.

Lemma one_key_weight (r : R) (ks : list K) :
  NoDup ks -> In (key r) ks ->
  sum (map (fun k => if keqb (key r) k then w r else 0) ks) = w r.
Proof.
  induction ks as [|k ks IH]; intros Hnd Hin; [contradiction|].
  apply NoDup_cons_iff in Hnd as [Hk Hnd]. simpl map. rewrite sum_cons.
  destruct (keqb (key r) k) eqn:E.
  - apply keqb_eq in E. subst k.
    assert (Hz : forall l, ~ In (key r) l ->
                   sum (map (fun k => if keqb (key r) k then w r else 0) l)
                   = 0).
    { induction l as [|k l IHl]; intros Hl; [reflexivity|].
      simpl map. rewrite sum_cons.
      destruct (keqb (key r) k) eqn:E.
      - apply keqb_eq in E. exfalso. apply Hl. now left.
      - rewrite IHl; [reflexivity|]. intros H. apply Hl. now right. }
    rewrite (Hz ks Hk). lia.
  - destruct Hin as [->|Hin].
    + assert (keqb (key r) (key r) = true) by now apply keqb_eq.
      congruence.
    + rewrite (IH Hnd Hin). lia.
Qed.

Lemma keys_weight_cons (r : R) (rows : list R) (ks : list K) :
  sum (map (fun k => sum (map w (filter (fun x => keqb (key x) k)
                                   (r :: rows)))) ks)
  = sum (map (fun k => if keqb (key r) k then w r else 0) ks)
    + sum (map (fun k => sum (map w (filter (fun x => keqb (key x) k) rows)))
        ks).
Proof.
  induction ks as [|k ks IH]; [reflexivity|].
  rewrite !map_cons, !sum_cons, IH. simpl filter.
  destruct (keqb (key r) k); [rewrite map_cons, sum_cons|]; lia.
Qed.

Lemma keys_weight (ks : list K) (rows : list R) :
  NoDup ks -> (forall r, In r rows -> In (key r) ks) ->
  sum (map (fun k => sum (map w (filter (fun r => keqb (key r) k) rows))) ks)
  = sum (map w rows).
Proof.
  intros Hnd. induction rows as [|r rows IH]; intros Hin.
  - simpl filter. clear. induction ks as [|k ks IH]; [reflexivity|].
    rewrite map_cons, sum_cons, IH. reflexivity.
  - rewrite keys_weight_cons, IH by (intros x Hx; apply Hin; now right).
    rewrite one_key_weight by (auto; apply Hin; now left).
    reflexivity.
Qed.

(** Grouping loses and duplicates nothing: the group totals add up to the
    total of the frame. *)
Lemma groupby_weight (rows : list R) :
  sum (map (fun g => sum (map w (snd g))) (groupby keqb kleb key rows))
  = sum (map w rows).
Proof.
  unfold groupby. rewrite map_map. simpl.
  rewrite <- (keys_weight (unique keqb (map key rows)) rows).
  - apply sum_perm, Permutation_map, sort_by_perm.
  - apply (NoDup_unique keqb keqb_eq).
  - intros r Hr. apply (In_unique keqb keqb_eq). now apply in_map.
Qed.
End GroupTotals.

Lemma NoDup_map_top {A B : Type} (f : A -> B) (le : A -> A -> bool)
  (n : nat) (l : list A) :
  NoDup (map f l) -> NoDup (map f (head n (sort_by le l))).
Proof.
  intros H. unfold head. rewrite <- firstn_map. apply (head_NoDup n).
  eapply Permutation_NoDup; [|exact H].
  apply Permutation_map. symmetry. apply sort_by_perm.
Qed.

Lemma NoDup_value_counts (col : list string) :
  NoDup (map fst (value_counts col)).
Proof.
  unfold value_counts, sort_values_desc.
  eapply Permutation_NoDup.
  - apply Permutation_map. symmetry. apply sort_by_perm.
  - rewrite map_map. simpl. rewrite map_id.
    apply (NoDup_unique String.eqb string_eqb_eq).
Qed.

Lemma value_counts_positive (col : list string) (v : string) (n : Z) :
  In (v, n) (value_counts col) -> 1 <= n.
Proof.
  intros H. apply In_value_counts in H as [Hv ->].
  assert (Hin : In v (filter (String.eqb v) col)).
  { apply filter_In. split; [assumption | apply String.eqb_refl]. }
  destruct (filter (String.eqb v) col); [contradiction|].
  rewrite count_cons. pose proof (count_nonneg l). lia.
Qed.

Lemma value_counts_sorted (col : list string) :
  StronglySorted (fun a b : string * Z => snd b <= snd a) (value_counts col).
Proof. apply sort_values_desc_sorted. Qed.

(** ** Top scorers *)

Lemma NoDup_runs_by_batter (data : list Delivery) :
  NoDup (map fst (runs_by_batter data)).
Proof.
  unfold runs_by_batter, agg. rewrite map_map. simpl.
  apply (NoDup_groupby_keys String.eqb String.leb string_eqb_eq).
Qed.

(** X1: the top-scorers result lists at most 10 distinct batters of the
    exclude-veteran frame, each with the sum of the batsman_runs of that
    batter's deliveries in the frame, in descending order of runs; a
    batter left out has no more runs than any batter listed. *)
Theorem top_scorers_ranking (matches : list Match)
  (deliveries : list Delivery) :
  let data := fr1_data matches deliveries in
  let out := top_scorers matches deliveries in
  (forall b n, In (b, n) out ->
               In b (map batter data)
               /\ n = sum (map batsman_runs
                             (filter (fun d => String.eqb (batter d) b) data)))
  /\ StronglySorted (fun x y : string * Z => snd y <= snd x) out
  /\ (List.length out <= 10)%nat
  /\ NoDup (map fst out)
  /\ (forall x y, In x out -> In y (runs_by_batter data) -> ~ In y out ->
                  snd y <= snd x).
Proof.
  intros data out. unfold out, top_scorers. fold data.
  pose proof (sort_values_desc_sorted snd (runs_by_batter data)) as Hs.
  split; [|split; [|split; [|split]]].
  - intros b n H. apply head_In in H. unfold sort_values_desc in H.
    apply In_sort_by in H. now apply In_runs_by_batter.
  - now apply head_sorted.
  - apply head_length.
  - unfold sort_values_desc. apply NoDup_map_top, NoDup_runs_by_batter.
  - intros x y Hx Hy Hn.
    apply (head_top (fun x y : string * Z => snd y <= snd x) 10 _ x y Hs Hx);
      [|exact Hn].
    unfold sort_values_desc. now apply In_sort_by.
Qed.

(** X2: grouping by batter conserves runs: the per-batter sums of a frame
    add up to the sum of its batsman_runs column. *)
Theorem runs_by_batter_total (data : list Delivery) :
  sum (map snd (runs_by_batter data)) = sum (map batsman_runs data).
Proof.
  unfold runs_by_batter, agg. rewrite map_map. simpl.
  apply (groupby_weight String.eqb String.leb string_eqb_eq).
Qed.

Lemma runs_by_batter_filtered (keep : string -> bool) (data : list Delivery)
  (b : string) (n : Z) :
  In (b, n) (runs_by_batter (filter (fun d => keep (batter d)) data)) <->
  keep b = true /\ In (b, n) (runs_by_batter data).
Proof.
  rewrite !In_runs_by_batter.
  assert (Hf : keep b = true ->
               filter (fun d => String.eqb (batter d) b)
                 (filter (fun d => keep (batter d)) data)
               = filter (fun d => String.eqb (batter d) b) data).
  { intros Hk. induction data as [|d data IH]; [reflexivity|]. simpl.
    destruct (String.eqb_spec (batter d) b) as [E|E].
    - rewrite E, Hk. simpl. rewrite E, String.eqb_refl. now rewrite IH.
    - destruct (keep (batter d)); simpl; [|exact IH].
      apply String.eqb_neq in E. now rewrite E. }
  split.
  - intros [Hb ->]. apply in_map_iff in Hb as [d [E Hd]].
    apply filter_In in Hd as [Hd Hk]. rewrite E in Hk.
    rewrite (Hf Hk). repeat split; try assumption.
    rewrite <- E. now apply in_map.
  - intros [Hk [Hb ->]]. rewrite (Hf Hk). split; [|reflexivity].
    apply in_map_iff in Hb as [d [E Hd]]. apply in_map_iff. exists d.
    split; [assumption|]. apply filter_In. split; [assumption|].
    now rewrite E.
Qed.

(** X3: the exclude-veteran and the veteran-only batting frames split the
    post-2020 totals: a batter's post-2020 total is the total in exactly one
    of the two frames, and no batter is grouped in both. *)
Theorem veteran_split_batting (matches : list Match)
  (deliveries : list Delivery) (b : string) (n : Z) :
  (In (b, n) (runs_by_batter (post_2020_data matches deliveries)) <->
   In (b, n) (runs_by_batter (fr1_data matches deliveries))
   \/ In (b, n) (runs_by_batter (fr1_vet_data matches deliveries)))
  /\ ~ (In b (map fst (runs_by_batter (fr1_data matches deliveries)))
        /\ In b (map fst (runs_by_batter (fr1_vet_data matches deliveries)))).
Proof.
  unfold fr1_data, fr1_vet_data.
  set (vet := early_players_bat matches deliveries).
  set (post := post_2020_data matches deliveries).
  split.
  - rewrite (runs_by_batter_filtered
               (fun p => negb (isin String.eqb p vet)) post b n).
    rewrite (runs_by_batter_filtered (fun p => isin String.eqb p vet) post b n).
    destruct (isin String.eqb b vet); simpl; split.
    + intros H. right. now split.
    + intros [[H _]|[_ H]]; [discriminate|exact H].
    + intros H. left. now split.
    + intros [[_ H]|[H _]]; [exact H|discriminate].
  - intros [H1 H2].
    apply in_map_iff in H1 as [[b1 n1] [E1 H1]].
    apply in_map_iff in H2 as [[b2 n2] [E2 H2]]. simpl in E1, E2. subst.
    apply (runs_by_batter_filtered
             (fun p => negb (isin String.eqb p vet)) post) in H1 as [H1 _].
    apply (runs_by_batter_filtered
             (fun p => isin String.eqb p vet) post) in H2 as [H2 _].
    rewrite H2 in H1. discriminate.
Qed.

(** ** Bowlers and fielders *)

Lemma filter_map_swap {A B : Type} (f : A -> B) (p : B -> bool)
  (l : list A) :
  filter p (map f l) = map f (filter (fun x => p (f x)) l).
Proof.
  induction l as [|x l IH]; [reflexivity|]. simpl.
  destruct (p (f x)); simpl; now rewrite IH.
Qed.

Lemma In_bowler_wickets (data : list Delivery) (d : Delivery) :
  In d (bowler_wickets data) <->
  In d data /\ is_wicket d = 1
  /\ forall k, dismissal_kind d = Some k -> ~ In k not_bowler_wicket.
Proof.
  unfold bowler_wickets. rewrite !filter_In, Z.eqb_eq, negb_true_iff.
  unfold isin_cell. destruct (dismissal_kind d) as [k|].
  - rewrite (isin_not_In String.eqb string_eqb_eq). split.
    + intros [[H1 H2] H3]. repeat split; try assumption.
      intros k' E. now inversion E; subst.
    + intros [H1 [H2 H3]]. repeat split; try assumption. now apply H3.
  - split.
    + intros [[H1 H2] _]. repeat split; try assumption. discriminate.
    + intros [H1 [H2 _]]. auto.
Qed.

(** X4: the top-bowlers result lists at most 10 distinct bowlers, none of
    whom bowled in 2008-2012, each with a positive number of wickets, in
    descending order; a wicket is a post-2020 delivery of the bowler with
    is_wicket 1 whose dismissal kind is not "run out", "retired hurt" or
    "obstructing the field" (a null kind counts). *)
Theorem top_bowlers_wickets (matches : list Match)
  (deliveries : list Delivery) :
  let out := top_bowlers matches deliveries in
  (forall b n, In (b, n) out ->
               1 <= n
               /\ ~ In b (early_players_bowl matches deliveries)
               /\ n = count (filter (fun d => String.eqb b (bowler d))
                               (wickets matches deliveries)))
  /\ (forall d, In d (wickets matches deliveries) <->
                In d (post_2020_data matches deliveries)
                /\ ~ In (bowler d) (early_players_bowl matches deliveries)
                /\ is_wicket d = 1
                /\ forall k, dismissal_kind d = Some k ->
                             ~ In k ["run out"; "retired hurt";
                                     "obstructing the field"])
  /\ StronglySorted (fun x y : string * Z => snd y <= snd x) out
  /\ (List.length out <= 10)%nat
  /\ NoDup (map fst out).
Proof.
  intros out. unfold out, top_bowlers.
  assert (Hw : forall d, In d (wickets matches deliveries) <->
                In d (post_2020_data matches deliveries)
                /\ ~ In (bowler d) (early_players_bowl matches deliveries)
                /\ is_wicket d = 1
                /\ forall k, dismissal_kind d = Some k ->
                             ~ In k not_bowler_wicket).
  { intros d. unfold wickets. rewrite In_bowler_wickets.
    unfold fr4_data. rewrite filter_In, negb_true_iff.
    rewrite (isin_not_In String.eqb string_eqb_eq). tauto. }
  split; [|split; [exact Hw|split; [|split]]].
  - intros b n H. apply head_In in H. split; [|split].
    + now apply value_counts_positive in H.
    + apply In_value_counts in H as [H _].
      apply in_map_iff in H as [d [<- Hd]]. now apply Hw in Hd.
    + apply In_value_counts in H as [_ ->].
      now rewrite filter_map_swap, count_map.
  - apply head_sorted, value_counts_sorted.
  - apply head_length.
  - unfold head. rewrite <- firstn_map. apply (head_NoDup 10).
    apply NoDup_value_counts.
Qed.

Lemma filter_dropna (f : string) (col : list (option string)) :
  filter (String.eqb f) (dropna col)
  = dropna (filter (fun c => eq_cell f c) col).
Proof.
  induction col as [|[x|] col IH]; simpl; [reflexivity| |exact IH].
  destruct (String.eqb f x); simpl; now rewrite IH.
Qed.

Lemma count_dropna_some (f : string) (col : list (option string)) :
  count (dropna (filter (fun c => eq_cell f c) col))
  = count (filter (fun c => eq_cell f c) col).
Proof.
  induction col as [|[x|] col IH]; simpl; [reflexivity| |exact IH].
  destruct (String.eqb f x); simpl; [|exact IH].
  rewrite !count_cons. now rewrite IH.
Qed.

(** X5: the top-fielders result lists at most 10 distinct fielders, each
    with the positive number of deliveries of the whole table whose
    dismissal kind is "caught" and whose fielder cell holds that name, in
    descending order; a catch with a null fielder is credited to nobody. *)
Theorem top_fielders_catches (deliveries : list Delivery) :
  let out := top_fielders deliveries in
  (forall f n, In (f, n) out ->
               1 <= n
               /\ n = count (filter (fun d => eq_cell f (fielder d))
                               (catches deliveries)))
  /\ (forall d, In d (catches deliveries) <->
                In d deliveries /\ dismissal_kind d = Some "caught")
  /\ StronglySorted (fun x y : string * Z => snd y <= snd x) out
  /\ (List.length out <= 10)%nat
  /\ NoDup (map fst out).
Proof.
  intros out. unfold out, top_fielders.
  split; [|split; [|split; [|split]]].
  - intros f n H. apply head_In in H. split.
    + now apply value_counts_positive in H.
    + apply In_value_counts in H as [_ ->].
      rewrite filter_dropna, count_dropna_some, filter_map_swap.
      now rewrite count_map.
  - intros d. unfold catches. rewrite filter_In. unfold eq_cell.
    destruct (dismissal_kind d) as [k|].
    + rewrite String.eqb_eq. split; intros [H1 H2]; split; congruence.
    + split; intros [H1 H2]; discriminate.
  - apply head_sorted, value_counts_sorted.
  - apply head_length.
  - unfold head. rewrite <- firstn_map. apply (head_NoDup 10).
    apply NoDup_value_counts.
Qed.

(** ** Stadium tables *)

Lemma count_as_sum {A : Type} (l : list A) :
  count l = sum (map (fun _ => 1) l).
Proof.
  induction l as [|x l IH]; [reflexivity|].
  rewrite count_cons, map_cons, sum_cons. lia.
Qed.

Lemma sum_filter_le {A : Type} (f : A -> Z) (p : A -> bool) (l : list A) :
  (forall x, In x l -> 0 <= f x) ->
  sum (map f (filter p l)) <= sum (map f l).
Proof.
  induction l as [|x l IH]; intros H; [reflexivity|].
  assert (IH' := IH (fun y Hy => H y (or_intror Hy))).
  assert (Hx := H x (or_introl eq_refl)).
  simpl filter. rewrite map_cons, sum_cons.
  destruct (p x); [rewrite map_cons, sum_cons|]; lia.
Qed.

Lemma count_filter_le {A : Type} (p : A -> bool) (l : list A) :
  count (filter p l) <= count l.
Proof.
  induction l as [|x l IH]; [reflexivity|]. simpl filter.
  destruct (p x); rewrite ?count_cons; lia.
Qed.

Lemma NoDup_venue_stats (matches : list Match) :
  NoDup (map vr_venue (venue_stats matches)).
Proof.
  unfold venue_stats. rewrite map_map.
  rewrite (map_ext _ (fun s : string * Z * Z * Z => fst (fst (fst s))))
    by (now intros [[[k total] bat] field]).
  apply distinct_keys_filter.
  unfold venue_stats_agg, venue_groups, agg. rewrite map_map. simpl.
  apply (NoDup_groupby_keys String.eqb String.leb string_eqb_eq).
Qed.

(** X6: every row of the venue win-probability table stands for a distinct
    venue with at least 10 matches; each of its two win counts lies between
    0 and total_matches, so each percentage lies between 0 and 100,
    whatever the toss decisions are. *)
Theorem venue_stats_bounds (matches : list Match) :
  (forall v, In v (venue_stats matches) ->
             total_matches v
             = count (filter (fun m => String.eqb (venue m) (vr_venue v))
                        matches)
             /\ 10 <= total_matches v
             /\ 0 <= bat_first_wins v <= total_matches v
             /\ 0 <= field_first_wins v <= total_matches v
             /\ (0 <= bat_first_win_pct v /\ bat_first_win_pct v <= 100)%Q
             /\ (0 <= field_first_win_pct v
                 /\ field_first_win_pct v <= 100)%Q)
  /\ NoDup (map vr_venue (venue_stats matches)).
Proof.
  split; [|apply NoDup_venue_stats].
  intros v Hv. apply In_venue_stats in Hv as [k [_ [Hmin ->]]].
  cbv zeta. simpl.
  set (g := filter (fun m => String.eqb (venue m) k) matches) in *.
  pose proof (sum_bool_bounds (map bat_first_win g)) as Hb.
  pose proof (sum_bool_bounds (map field_first_win g)) as Hf.
  rewrite !count_map in *.
  repeat split; try lia; apply pct_bounds; lia.
Qed.

(** X7: the venue totals of the win-probability table never add up to more
    than the number of matches: grouping by venue counts every match once,
    and the 10-match threshold only drops venues. *)
Theorem venue_stats_total (matches : list Match) :
  sum (map total_matches (venue_stats matches)) <= count matches.
Proof.
  unfold venue_stats. rewrite map_map.
  rewrite (map_ext _ (fun s : string * Z * Z * Z => snd (fst (fst s))))
    by (now intros [[[k total] bat] field]).
  assert (Hall : sum (map (fun s : string * Z * Z * Z => snd (fst (fst s)))
                        (venue_stats_agg matches))
                 = count matches).
  { unfold venue_stats_agg, venue_groups, agg. rewrite map_map. simpl.
    rewrite (map_ext _ (fun g : string * list Match =>
                          sum (map (fun _ => 1) (snd g))))
      by (intros g; now rewrite count_map, count_as_sum).
    rewrite (groupby_weight String.eqb String.leb string_eqb_eq).
    now rewrite <- count_as_sum. }
  rewrite <- Hall. apply sum_filter_le.
  intros [[[k total] bat] field] H. simpl.
  unfold venue_stats_agg, venue_groups in H.
  apply (In_agg String.eqb String.leb string_eqb_eq) in H as [k' [_ E]].
  inversion E; subst. apply count_nonneg.
Qed.

Lemma In_toss_impact (matches : list Match) (t : TossRow) :
  In t (toss_impact matches) <->
  exists k, In k (map venue matches)
    /\ 10 <= count (filter (fun m => String.eqb (venue m) k) matches)
    /\ t = let g := filter (fun m => String.eqb (venue m) k) matches in
           mkTossRow k (count (map id g))
             (sum_bool (map toss_win_match_win g))
             (pct (sum_bool (map toss_win_match_win g)) (count (map id g))).
Proof.
  unfold toss_impact, venue_groups. rewrite in_map_iff. split.
  - intros [[[k n] w] [E H]].
    apply filter_In in H as [H Hmin]. apply Z.leb_le in Hmin.
    apply (In_agg String.eqb String.leb string_eqb_eq) in H
      as [k' [Hk E']].
    inversion E'; subst. simpl in Hmin. rewrite count_map in Hmin.
    exists k'. auto.
  - intros [k [Hk [Hmin ->]]].
    set (g := filter (fun m => String.eqb (venue m) k) matches).
    exists (k, count (map id g), sum_bool (map toss_win_match_win g)).
    split; [reflexivity|]. apply filter_In. split.
    + apply (In_agg String.eqb String.leb string_eqb_eq).
      exists k. now split.
    + apply Z.leb_le. simpl. now rewrite count_map.
Qed.

(** X8: the toss-impact ranking lists at most 10 venues with at least 10
    matches each, in descending order of win_prob; wins counts the matches
    of the venue whose winner cell equals the toss winner, so it lies
    between 0 and the number of matches and win_prob between 0 and 100. *)
Theorem top_toss_venues_ranking (matches : list Match) :
  let out := top_toss_venues matches in
  (forall t, In t out ->
             tr_matches t
             = count (filter (fun m => String.eqb (venue m) (tr_venue t))
                        matches)
             /\ tr_wins t
                = count (filter (fun m => eq_cell (toss_winner m) (winner m))
                           (filter (fun m => String.eqb (venue m) (tr_venue t))
                              matches))
             /\ 10 <= tr_matches t
             /\ 0 <= tr_wins t <= tr_matches t
             /\ (0 <= win_prob t /\ win_prob t <= 100)%Q)
  /\ StronglySorted (fun x y => (win_prob y <= win_prob x)%Q) out
  /\ (List.length out <= 10)%nat.
Proof.
  intros out. unfold out, top_toss_venues. split; [|split].
  - intros t Ht. apply head_In in Ht. unfold sort_values_descQ in Ht.
    apply In_sort_by in Ht. apply In_toss_impact in Ht as [k [_ [Hmin ->]]].
    cbv zeta. simpl.
    set (g := filter (fun m => String.eqb (venue m) k) matches) in *.
    pose proof (sum_bool_bounds (map toss_win_match_win g)) as Hb.
    rewrite !count_map in *.
    assert (Hw : sum_bool (map toss_win_match_win g)
                 = count (filter (fun m => eq_cell (toss_winner m) (winner m))
                            g)).
    { clear. induction g as [|m g IH]; [reflexivity|].
      rewrite map_cons, sum_bool_cons. simpl filter.
      unfold toss_win_match_win at 1.
      destruct (eq_cell (toss_winner m) (winner m));
        rewrite ?count_cons; lia. }
    repeat split; try lia; apply pct_bounds; lia.
  - apply head_sorted, sort_values_descQ_sorted.
  - apply head_length.
Qed.

(** ** Empty results *)

Lemma filter_none {A : Type} (p : A -> bool) (l : list A) :
  (forall x, In x l -> p x = false) -> filter p l = [].
Proof.
  induction l as [|x l IH]; intros H; [reflexivity|]. simpl.
  rewrite (H x (or_introl eq_refl)). apply IH. intros y Hy. apply H.
  now right.
Qed.

(** X9: on a matches table that has rows, none of them with a year after
    2020 (a null year included), the post-2020 frame is empty and so is the
    result of every query computed from it: top scorers, power hitters, top
    bowlers, their veteran variants and the team winning percentages.  (On a
    table without rows the script stops at the merge of line 199, before
    the veteran variants; that table is excluded here.) *)
Theorem no_recent_match_empty (matches : list Match)
  (deliveries : list Delivery) :
  matches <> [] ->
  (forall m y, In m matches -> year m = Some y -> y <= 2020) ->
  post_2020_data matches deliveries = []
  /\ top_scorers matches deliveries = []
  /\ top_sr matches deliveries = []
  /\ top_bowlers matches deliveries = []
  /\ top_vet_scorers matches deliveries = []
  /\ top_vet_bowlers matches deliveries = []
  /\ team_perf matches = [].
Proof.
  intros _ Hold.
  assert (Hrecent : filter (fun m => gt_cell (year m) 2020) matches = []).
  { apply filter_none. intros m Hm. unfold gt_cell.
    destruct (year m) as [y|] eqn:Ey; [|reflexivity].
    apply Z.ltb_ge. now apply (Hold m). }
  assert (Hpost : post_2020_data matches deliveries = []).
  { unfold post_2020_data, post_2020_matches. rewrite Hrecent.
    now apply filter_none. }
  split; [exact Hpost|]. repeat split.
  - unfold top_scorers, fr1_data. now rewrite Hpost.
  - unfold top_sr, stats, stats_agg. now rewrite Hpost.
  - unfold top_bowlers, wickets, fr4_data. now rewrite Hpost.
  - unfold top_vet_scorers, fr1_vet_data. now rewrite Hpost.
  - unfold top_vet_bowlers, vet_wickets, fr4_vet_data. now rewrite Hpost.
  - unfold team_perf, team_stats, wins, recent_matches. now rewrite Hrecent.
Qed.

(** X10: with fewer than 10 matches in the table no venue reaches the
    threshold, and the win-probability table and the toss-impact ranking
    are empty. *)
Theorem few_matches_empty (matches : list Match) :
  count matches < 10 ->
  venue_stats matches = []
  /\ toss_impact matches = []
  /\ top_toss_venues matches = [].
Proof.
  intros Hfew.
  assert (Hv : venue_stats matches = []).
  { destruct (venue_stats matches) as [|v l] eqn:E; [reflexivity|].
    assert (Hin : In v (venue_stats matches)) by (rewrite E; now left).
    apply In_venue_stats in Hin as [k [_ [Hmin _]]].
    pose proof (count_filter_le (fun m => String.eqb (venue m) k) matches).
    lia. }
  assert (Ht : toss_impact matches = []).
  { destruct (toss_impact matches) as [|t l] eqn:E; [reflexivity|].
    assert (Hin : In t (toss_impact matches)) by (rewrite E; now left).
    apply In_toss_impact in Hin as [k [_ [Hmin _]]].
    pose proof (count_filter_le (fun m => String.eqb (venue m) k) matches).
    lia. }
  repeat split; try assumption.
  unfold top_toss_venues. now rewrite Ht.
Qed.

(** ** Team winning percentages *)







(** ** The joined view, in general *)

Lemma merge_one_length (d : Delivery) (ms : list Match) :
  Z.of_nat (List.length (merge_deliveries [d] ms))
  = Z.max 1 (count (filter (fun m => match_id d =? id m) ms)).
Proof.
  unfold merge_deliveries, merge_left. simpl. rewrite app_nil_r.
  destruct (filter (fun m => match_id d =? id m) ms) as [|m rs].
  - reflexivity.
  - rewrite count_cons. unfold count. simpl List.length.
    rewrite length_map. lia.
Qed.

Lemma merge_one_rows (d : Delivery) (ms : list Match) (j : JoinedDelivery) :
  In j (merge_deliveries [d] ms) ->
  jd_delivery j = d
  /\ match jd_match j with
     | Some m => In m ms /\ id m = match_id d
     | None => forall m, In m ms -> id m <> match_id d
     end.
Proof.
  unfold merge_deliveries, merge_left. simpl. rewrite app_nil_r.
  destruct (filter (fun m => match_id d =? id m) ms) as [|m rs] eqn:E.
  - intros [<-|[]]. simpl. split; [reflexivity|].
    intros m Hm Eid.
    assert (Hin : In m (filter (fun m => match_id d =? id m) ms)).
    { apply filter_In. split; [assumption|]. apply Z.eqb_eq. congruence. }
    rewrite E in Hin. contradiction.
  - intros H.
    change (In j (map (fun r => mkJoined d (Some r)) (m :: rs))) in H.
    apply in_map_iff in H as [m' [<- Hm']]. simpl.
    split; [reflexivity|]. rewrite <- E in Hm'.
    apply filter_In in Hm' as [Hm' Hid]. apply Z.eqb_eq in Hid. auto.
Qed.

(** X12: whatever the match ids are, the join keeps every delivery and
    invents none; a row with a match side carries a match of the table with
    the delivery's match_id, and a row with a null match side belongs to a
    delivery no match has the id of.  A delivery appears once per match row
    with its id (once when there is none), so duplicated match ids multiply
    its rows. *)
Theorem merged_data_rows (deliveries : list Delivery)
  (matches : list Match) :
  let merged_data := merge_deliveries deliveries matches in
  (forall j, In j merged_data ->
             In (jd_delivery j) deliveries
             /\ match jd_match j with
                | Some m => In m matches /\ id m = match_id (jd_delivery j)
                | None => forall m, In m matches ->
                                    id m <> match_id (jd_delivery j)
                end)
  /\ (forall d, In d deliveries ->
                exists j, In j merged_data /\ jd_delivery j = d)
  /\ Z.of_nat (List.length merged_data)
     = sum (map (fun d => Z.max 1 (count (filter (fun m => match_id d =? id m)
                                             matches)))
              deliveries).
Proof.
  intros merged_data. unfold merged_data. split; [|split].
  - intros j Hj. apply In_merge_deliveries in Hj as [d [Hd Hj]].
    apply merge_one_rows in Hj as [-> H]. now split.
  - intros d Hd. now apply merged_has_delivery.
  - induction deliveries as [|d ds IH]; [reflexivity|].
    rewrite merge_deliveries_cons, length_app, Nat2Z.inj_add, IH.
    now rewrite merge_one_length, map_cons, sum_cons.
Qed.

(** ** Highest chases *)

Lemma merge_deliveries_left (deliveries : list Delivery)
  (matches : list Match) :
  NoDup (map id matches) ->
  map jd_delivery (merge_deliveries deliveries matches) = deliveries.
Proof.
  intros Hnd. induction deliveries as [|d ds IH]; [reflexivity|].
  rewrite merge_deliveries_cons, map_app, IH.
  destruct (merge_left_row matches d Hnd) as [o [-> _]]. reflexivity.
Qed.

(** X13: with unique match ids, each of the at most 10 rows of the highest
    chases is a match won by the side fielding first that has a first
    innings, and its target is the sum of total_runs over the deliveries of
    the first innings of that match; rows come in descending order of the
    target. *)
Theorem top_chases_targets (deliveries : list Delivery)
  (matches : list Match) :
  NoDup (map id matches) ->
  let out := top_chases matches (merge_deliveries deliveries matches) in
  (forall m target, In (m, target) out ->
     In m matches
     /\ field_first_won m = true
     /\ (exists d, In d deliveries /\ inning d = 1 /\ match_id d = id m)
     /\ target = sum (map total_runs
                        (filter (fun d => match_id d =? id m)
                           (filter (fun d => inning d =? 1) deliveries))))
  /\ StronglySorted (fun x y : Match * Z => snd y <= snd x) out
  /\ (List.length out <= 10)%nat.
Proof.
  intros Hnd out. unfold out, top_chases. split; [|split].
  - intros m target H. apply head_In in H. unfold sort_values_desc in H.
    apply In_sort_by in H. apply In_chases in H as [Hm [Hf H]].
    unfold inn1_runs in H.
    apply (In_agg Z.eqb Z.leb Z_eqb_eq) in H as [k [Hk E]].
    injection E as Ek Et. subst k.
    repeat split; try assumption.
    + apply in_map_iff in Hk as [j [Ej Hj]].
      apply filter_In in Hj as [Hj Hi]. apply Z.eqb_eq in Hi.
      exists (jd_delivery j). repeat split; try assumption.
      apply In_merge_deliveries in Hj as [d [Hd Hj]].
      apply merge_one_rows in Hj as [-> _]. exact Hd.
    + rewrite Et. rewrite <- (merge_deliveries_left deliveries matches Hnd)
        at 2.
      rewrite !filter_map_swap, map_map. reflexivity.
  - apply head_sorted, sort_values_desc_sorted.
  - apply head_length.
Qed.

(** ** Coach tables *)

(** X14: with unique match ids, on a row of the chase frame whose match has
    toss_decision "bat" or "field" and no winner when the result is "tie" or
    "no result", the chase-win flag is the conjunction of the row's [won]
    and [field_first_win] columns: the player's team won and the side
    fielding first won. *)
Theorem chase_win_field_first (matches : list Match)
  (deliveries : list Delivery) (row : VetPerfFull) :
  NoDup (map id matches) ->
  In row (vet_perf_full matches deliveries) ->
  (forall m, In m matches -> id m = vp_id (vf_perf row) ->
             (toss_decision m = "bat" \/ toss_decision m = "field")
             /\ (In (result m) ["tie"; "no result"] -> winner m = None)) ->
  chase_win row
  = won (vf_perf row) && vp_field_first_win (vf_perf row).
Proof.
  intros Hnd Hrow Hm.
  apply In_vet_perf_full in Hrow as [v [m' [Hv [Hm' [Eid ->]]]]].
  apply In_vet_perf in Hv as [t [m [_ [Hin [_ ->]]]]].
  simpl in Eid, Hm.
  assert (m' = m) by (apply (NoDup_map_eq id matches); auto).
  subst m'. destruct (Hm m Hin eq_refl) as [Hd Hu].
  unfold chase_win, check_chase, field_first_win.
  cbn [vf_perf won vp_team vf_toss_decision vf_toss_winner
       vp_field_first_win].
  destruct (eq_cell (pt_team t) (winner m)) eqn:Ewon; [|reflexivity].
  unfold eq_cell in Ewon. destruct (winner m) as [w|] eqn:Ew; [|discriminate].
  apply String.eqb_eq in Ewon. subst w.
  destruct (undecided m) eqn:Eu.
  { apply undecided_In in Eu. apply Hu in Eu. discriminate. }
  destruct Hd as [Hd|Hd];
    [destruct (first_won_decided_bat m Eu Hd) as [_ ->]
    |destruct (first_won_decided_field m Eu Hd) as [_ ->]];
    rewrite Hd, Ew; unfold ne_cell, eq_cell; simpl;
    destruct (String.eqb (toss_winner m) (pt_team t)); reflexivity.
Qed.

Lemma In_vet_win_stats (matches : list Match) (deliveries : list Delivery)
  (c : CoachRow) :
  In c (vet_win_stats matches deliveries) <->
  exists k, In k (map vp_player (vet_perf matches deliveries))
    /\ 50 <= count (filter (fun r => String.eqb (vp_player r) k)
                      (vet_perf matches deliveries))
    /\ c = let g := filter (fun r => String.eqb (vp_player r) k)
                      (vet_perf matches deliveries) in
           mkCoachRow k (count (map vp_id g)) (sum_bool (map won g))
             (pct (sum_bool (map won g)) (count (map vp_id g))).
Proof.
  unfold vet_win_stats, vet_groups. rewrite in_map_iff. split.
  - intros [[[k n] w] [E H]].
    apply filter_In in H as [H Hmin]. apply Z.leb_le in Hmin.
    apply (In_agg String.eqb String.leb string_eqb_eq) in H
      as [k' [Hk E']].
    inversion E'; subst. simpl in Hmin. rewrite count_map in Hmin.
    exists k'. auto.
  - intros [k [Hk [Hmin ->]]].
    set (g := filter (fun r => String.eqb (vp_player r) k)
                (vet_perf matches deliveries)).
    exists (k, count (map vp_id g), sum_bool (map won g)).
    split; [reflexivity|]. apply filter_In. split.
    + apply (In_agg String.eqb String.leb string_eqb_eq).
      exists k. now split.
    + apply Z.leb_le. simpl. now rewrite count_map.
Qed.

Lemma vet_perf_veteran (matches : list Match) (deliveries : list Delivery)
  (row : VetPerf) :
  In row (vet_perf matches deliveries) ->
  In (vp_player row) (all_veterans matches deliveries).
Proof.
  intros H. apply In_vet_perf in H as [t [m [Ht [_ [_ ->]]]]]. simpl.
  unfold vet_teams in Ht. apply filter_In in Ht as [_ Ht].
  now apply (isin_In String.eqb string_eqb_eq) in Ht.
Qed.




Lemma filter_unique_id (ms : list Match) (i : Z) :
  NoDup (map id ms) ->
  filter (fun m => i =? id m) ms = []
  \/ exists m, filter (fun m => i =? id m) ms = [m].
Proof.
  induction ms as [|m ms IH]; intros Hnd; [now left|].
  simpl in Hnd. apply NoDup_cons_iff in Hnd as [Hm Hnd]. simpl.
  destruct (Z.eqb_spec i (id m)) as [E|E]; [|now apply IH].
  right. exists m. f_equal. apply filter_none.
  intros m' Hm'. apply Z.eqb_neq. intros E'. apply Hm.
  rewrite <- E, E'. now apply in_map.
Qed.

Lemma NoDup_map_coarser {A B C : Type} (f : A -> B) (g : A -> C)
  (l : list A) :
  NoDup (map f l) ->
  (forall x y, In x l -> In y l -> g x = g y -> f x = f y) ->
  NoDup (map g l).
Proof.
  induction l as [|a l IH]; intros Hnd Hfg; [constructor|].
  simpl in *. apply NoDup_cons_iff in Hnd as [Ha Hnd].
  apply NoDup_cons_iff. split.
  - intros Hin. apply in_map_iff in Hin as [x [E Hx]]. apply Ha.
    rewrite <- (Hfg x a); auto. now apply in_map.
  - apply IH; auto.
Qed.

Lemma NoDup_vet_teams (matches : list Match) (deliveries : list Delivery) :
  NoDup (vet_teams matches deliveries).
Proof.
  unfold vet_teams, player_teams, batters.
  apply NoDup_filter, (NoDup_unique _ player_team_eqb_eq).
Qed.

Lemma NoDup_vet_perf_keys (matches : list Match) (ts : list PlayerTeam) :
  NoDup (map id matches) -> NoDup ts ->
  NoDup (map (fun r => (vp_match_id r, vp_player r, vp_team r))
           (merge_inner (fun t m => pt_match_id t =? id m)
              (fun t m =>
                 mkVetPerf (pt_match_id t) (pt_player t) (pt_team t) (id m)
                   (winner m) (bat_first_win m) (field_first_win m)
                   (eq_cell (pt_team t) (winner m)))
              ts matches)).
Proof.
  intros Hid. unfold merge_inner.
  induction ts as [|t ts IH]; intros Hnd; [constructor|].
  apply NoDup_cons_iff in Hnd as [Ht Hnd]. simpl flat_map.
  rewrite map_app.
  destruct (filter_unique_id matches (pt_match_id t) Hid) as [->|[m ->]];
    [now apply IH|].
  simpl. apply NoDup_cons_iff. split; [|now apply IH].
  intros Hin. apply in_map_iff in Hin as [r [E Hr]].
  apply in_flat_map in Hr as [t' [Ht' Hr]].
  apply in_map_iff in Hr as [m' [<- _]]. simpl in E.
  apply Ht. destruct t, t'. simpl in E. inversion E; subst. exact Ht'.
Qed.

Lemma vet_perf_has_row (matches : list Match) (deliveries : list Delivery)
  (d : Delivery) (m : Match) :
  In d deliveries -> In (batter d) (all_veterans matches deliveries) ->
  In m matches -> id m = match_id d ->
  In (mkVetPerf (match_id d) (batter d) (batting_team d) (id m) (winner m)
        (bat_first_win m) (field_first_win m)
        (eq_cell (batting_team d) (winner m)))
     (vet_perf matches deliveries).
Proof.
  intros Hd Hv Hm Eid. apply In_vet_perf.
  exists (mkPlayerTeam (match_id d) (batter d) (batting_team d)), m.
  repeat split; try assumption; [|simpl; congruence].
  unfold vet_teams, player_teams. apply filter_In. split.
  - apply In_batters. now exists d.
  - simpl. now apply (isin_In String.eqb string_eqb_eq).
Qed.

(** X16: the player-team frame of the coach tab has a row for (match,
    player, team) exactly when the player is a veteran who batted for the
    team in a delivery of the match and the match is in the matches table;
    the row carries the match's winner and [won] tells whether the team is
    the winner.  With unique match ids there is one such row per (match,
    player, team); when moreover nobody bats for two teams in one match,
    there is one row per (match, player), so the counts of the experience
    and win-percentage tables are numbers of distinct matches. *)
Theorem vet_perf_one_row_per_appearance (matches : list Match)
  (deliveries : list Delivery) :
  (forall mid p t,
      In (mid, p, t)
        (map (fun r => (vp_match_id r, vp_player r, vp_team r))
           (vet_perf matches deliveries)) <->
      In p (all_veterans matches deliveries)
      /\ (exists d, In d deliveries /\ match_id d = mid /\ batter d = p
                    /\ batting_team d = t)
      /\ (exists m, In m matches /\ id m = mid))
  /\ (forall r, In r (vet_perf matches deliveries) ->
                vp_id r = vp_match_id r
                /\ won r = eq_cell (vp_team r) (vp_winner r)
                /\ exists m, In m matches /\ id m = vp_match_id r
                             /\ vp_winner r = winner m)
  /\ (NoDup (map id matches) ->
      NoDup (map (fun r => (vp_match_id r, vp_player r, vp_team r))
               (vet_perf matches deliveries))
      /\ ((forall d1 d2, In d1 deliveries -> In d2 deliveries ->
                         match_id d1 = match_id d2 -> batter d1 = batter d2 ->
                         batting_team d1 = batting_team d2) ->
          NoDup (map (fun r => (vp_match_id r, vp_player r))
                   (vet_perf matches deliveries)))).
Proof.
  split; [|split].
  - intros mid p t. rewrite in_map_iff. split.
    + intros [r [E Hr]]. injection E as <- <- <-.
      split; [now apply vet_perf_veteran in Hr|]. split.
      * destruct (vet_perf_batting_row _ _ _ Hr) as [d H]. now exists d.
      * apply In_vet_perf in Hr as [t' [m [_ [Hm [Eid ->]]]]].
        exists m. simpl. auto.
    + intros [Hv [[d [Hd [<- [<- <-]]]] [m [Hm Eid]]]].
      eexists. split; [|exact (vet_perf_has_row _ _ d m Hd Hv Hm Eid)].
      reflexivity.
  - intros r Hr. apply In_vet_perf in Hr as [t [m [_ [Hm [Eid ->]]]]].
    simpl. repeat split; [congruence|]. exists m. auto.
  - intros Hid.
    assert (Hk : NoDup (map (fun r => (vp_match_id r, vp_player r, vp_team r))
                          (vet_perf matches deliveries))).
    { unfold vet_perf. apply NoDup_vet_perf_keys; [exact Hid|].
      apply NoDup_vet_teams. }
    split; [exact Hk|]. intros Hteam.
    apply (NoDup_map_coarser _ _ _ Hk). intros x y Hx Hy E.
    destruct (vet_perf_batting_row _ _ _ Hx) as [dx [Hdx [Emx [Ebx Etx]]]].
    destruct (vet_perf_batting_row _ _ _ Hy) as [dy [Hdy [Emy [Eby Ety]]]].
    inversion E as [[E1 E2]]. rewrite <- Etx, <- Ety.
    now rewrite (Hteam dx dy Hdx Hdy) by congruence.
Qed.

(** ** The veteran set *)

(** X17: the veterans of the coach tab are exactly the players who are the
    batter or the bowler of some delivery whose match_id is the id of a
    match with a year from 2008 to 2012; being a non-striker, or playing in
    a match without a year, does not make a veteran. *)
Theorem all_veterans_iff (matches : list Match) (deliveries : list Delivery)
  (p : string) :
  In p (all_veterans matches deliveries) <->
  exists d m y, In d deliveries /\ In m matches /\ id m = match_id d
                /\ year m = Some y /\ 2008 <= y <= 2012
                /\ (batter d = p \/ bowler d = p).
Proof.
  unfold all_veterans.
  rewrite in_app_iff, In_early_players_bat, In_early_players_bowl. split.
  - intros [[d [Hd [Hp Hs]]]|[d [Hd [Hp Hs]]]];
      apply In_early_seasons in Hs as [m [y [Hm [Eid [Ey Hy]]]]];
      exists d, m, y; repeat split; auto; lia.
  - intros [d [m [y [Hd [Hm [Eid [Ey [Hy [Hp|Hp]]]]]]]]]; [left|right];
      exists d; repeat split; auto;
      apply In_early_seasons; exists m, y; auto.
Qed.

(** ** Experience and successful chases *)

Lemma sum_bool_le {A : Type} (f g : A -> bool) (l : list A) :
  (forall x, In x l -> f x = true -> g x = true) ->
  sum_bool (map f l) <= sum_bool (map g l).
Proof.
  induction l as [|x l IH]; intros H; [reflexivity|].
  assert (IH' := IH (fun y Hy => H y (or_intror Hy))).
  assert (Hx := H x (or_introl eq_refl)).
  rewrite !map_cons, !sum_bool_cons.
  destruct (f x); [rewrite Hx by reflexivity | destruct (g x)]; lia.
Qed.

(** X18: the experience ranking lists at most 10 distinct veterans, each
    with the positive number of that player's rows in the player-team
    frame, in descending order; a veteran left out has no more rows than
    any veteran listed. *)
Theorem experience_ranking (matches : list Match)
  (deliveries : list Delivery) :
  let out := experience matches deliveries in
  (forall p n, In (p, n) out ->
               In p (all_veterans matches deliveries)
               /\ 1 <= n
               /\ n = count (filter (fun r => String.eqb (vp_player r) p)
                               (vet_perf matches deliveries)))
  /\ StronglySorted (fun x y : string * Z => snd y <= snd x) out
  /\ (List.length out <= 10)%nat
  /\ NoDup (map fst out)
  /\ (forall p n q k, In (p, n) out ->
                      In q (map vp_player (vet_perf matches deliveries)) ->
                      k = count (filter (fun r => String.eqb (vp_player r) q)
                                   (vet_perf matches deliveries)) ->
                      ~ In (q, k) out -> k <= n).
Proof.
  intros out. unfold out, experience.
  set (all := agg (fun k g => (k, count (map vp_id g)))
                (vet_groups matches deliveries)).
  assert (Hall : forall p n, In (p, n) all <->
            In p (map vp_player (vet_perf matches deliveries))
            /\ n = count (filter (fun r => String.eqb (vp_player r) p)
                            (vet_perf matches deliveries))).
  { intros p n. unfold all, vet_groups.
    rewrite (In_agg String.eqb String.leb string_eqb_eq). split.
    - intros [k [Hk E]]. inversion E; subst. now rewrite count_map.
    - intros [Hp ->]. exists p. now rewrite count_map. }
  pose proof (sort_values_desc_sorted snd all) as Hs.
  split; [|split; [|split; [|split]]].
  - intros p n H. apply head_In in H. unfold sort_values_desc in H.
    apply In_sort_by in H. apply Hall in H as [Hp ->].
    apply in_map_iff in Hp as [r [<- Hr]].
    split; [now apply vet_perf_veteran|]. split; [|reflexivity].
    assert (Hin : In r (filter (fun x => String.eqb (vp_player x) (vp_player r))
                          (vet_perf matches deliveries))).
    { apply filter_In. split; [assumption | apply String.eqb_refl]. }
    destruct (filter _ (vet_perf matches deliveries)); [contradiction|].
    rewrite count_cons. pose proof (count_nonneg l). lia.
  - now apply head_sorted.
  - apply head_length.
  - unfold sort_values_desc. apply NoDup_map_top.
    unfold all, vet_groups, agg. rewrite map_map. simpl.
    apply (NoDup_groupby_keys String.eqb String.leb string_eqb_eq).
  - intros p n q k Hp Hq Hk Hn.
    apply (head_top (fun x y : string * Z => snd y <= snd x) 10 _
             (p, n) (q, k) Hs Hp); [|exact Hn].
    unfold sort_values_desc. apply In_sort_by. now apply Hall.
Qed.

(** X19: the successful-chases ranking lists at most 10 distinct veterans
    in descending order of their number of chase wins, which is never
    negative and never more than the number of the player's rows in the
    chase frame whose team won. *)
Theorem chase_stats_ranking (matches : list Match)
  (deliveries : list Delivery) :
  let out := chase_stats matches deliveries in
  (forall p n, In (p, n) out ->
               In p (all_veterans matches deliveries)
               /\ 0 <= n
                  <= sum_bool
                       (map (fun r => won (vf_perf r))
                          (filter (fun r => String.eqb (vp_player (vf_perf r)) p)
                             (vet_perf_full matches deliveries))))
  /\ StronglySorted (fun x y : string * Z => snd y <= snd x) out
  /\ (List.length out <= 10)%nat
  /\ NoDup (map fst out).
Proof.
  intros out. unfold out, chase_stats. split; [|split; [|split]].
  - intros p n H. apply head_In in H. unfold sort_values_desc in H.
    apply In_sort_by in H. unfold chase_groups in H.
    apply (In_agg String.eqb String.leb string_eqb_eq) in H as [k [Hk E]].
    inversion E; subst. split.
    + apply in_map_iff in Hk as [r [<- Hr]].
      apply vet_perf_full_batting_row in Hr. now apply vet_perf_veteran in Hr.
    + split; [apply sum_bool_bounds|].
      apply sum_bool_le. intros r _. unfold chase_win, check_chase.
      now destruct (won (vf_perf r)).
  - apply head_sorted, sort_values_desc_sorted.
  - apply head_length.
  - unfold sort_values_desc. apply NoDup_map_top.
    unfold chase_groups, agg. rewrite map_map. simpl.
    apply (NoDup_groupby_keys String.eqb String.leb string_eqb_eq).
Qed.

(** ** Average innings totals *)

Lemma pair_eqb_eq (a b : Z * Z) : pair_eqb a b = true <-> a = b.
Proof.
  unfold pair_eqb. rewrite andb_true_iff, !Z.eqb_eq.
  destruct a, b. simpl. split; [intros [-> ->]; reflexivity|].
  intros E. inversion E. auto.
Qed.

(** X20: the average-score table has at most one row for innings 1 and one
    for innings 2 and none for any other innings (super overs are left
    out); the value of a row is the mean of the per-match totals of that
    innings, of which there is at least one, and each per-match total is
    the sum of total_runs over the joined rows of that match and innings. *)
Theorem avg_scores_innings (merged_data : list JoinedDelivery) :
  (forall i a, In (i, a) (avg_scores merged_data) ->
     (i = 1 \/ i = 2)
     /\ map snd (filter (fun s : Z * Z * Z => snd (fst s) =? i)
                   (inning_scores merged_data)) <> []
     /\ a = mean (map snd (filter (fun s : Z * Z * Z => snd (fst s) =? i)
                             (inning_scores merged_data))))
  /\ (forall mid i total, In (mid, i, total) (inning_scores merged_data) ->
        total = sum (map (fun j => total_runs (jd_delivery j))
                       (filter (fun j => pair_eqb
                                           (match_id (jd_delivery j),
                                            inning (jd_delivery j))
                                           (mid, i))
                          merged_data)))
  /\ NoDup (map fst (avg_scores merged_data))
  /\ (List.length (avg_scores merged_data) <= 2)%nat.
Proof.
  assert (Hrow : forall i a, In (i, a) (avg_scores merged_data) ->
     (i = 1 \/ i = 2)
     /\ map snd (filter (fun s : Z * Z * Z => snd (fst s) =? i)
                   (inning_scores merged_data)) <> []
     /\ a = mean (map snd (filter (fun s : Z * Z * Z => snd (fst s) =? i)
                             (inning_scores merged_data)))).
  { intros i a H. unfold avg_scores in H. apply filter_In in H as [H Hi].
    apply (isin_In Z.eqb Z_eqb_eq) in Hi.
    apply (In_agg Z.eqb Z.leb Z_eqb_eq) in H as [k [Hk E]].
    inversion E; subst. split; [simpl in Hi; lia|].
    split; [|reflexivity].
    apply in_map_iff in Hk as [s [Es Hs]].
    assert (Hin : In s (filter (fun s : Z * Z * Z => snd (fst s) =? k)
                          (inning_scores merged_data))).
    { apply filter_In. split; [assumption | now apply Z.eqb_eq]. }
    destruct (filter _ (inning_scores merged_data)); [contradiction|].
    discriminate. }
  assert (Hnd : NoDup (map fst (avg_scores merged_data))).
  { unfold avg_scores. apply distinct_keys_filter. unfold agg.
    rewrite map_map. simpl.
    apply (NoDup_groupby_keys Z.eqb Z.leb Z_eqb_eq). }
  split; [exact Hrow|]. split; [|split; [exact Hnd|]].
  - intros mid i total H. unfold inning_scores in H.
    apply (In_agg pair_eqb pair_leb pair_eqb_eq) in H as [[k1 k2] [_ E]].
    simpl in E. inversion E; subst. reflexivity.
  - rewrite <- (length_map fst).
    apply (NoDup_incl_length (l' := [1; 2]) Hnd).
    intros i Hi. apply in_map_iff in Hi as [[i' a] [<- Hin]].
    apply Hrow in Hin as [[->| ->] _]; simpl; auto.
Qed.


(** ** The further theorems on the example tables *)

Lemma no_recent_match_empty_witness :
  post_2020_data [match_2009] example_deliveries = []
  /\ top_scorers [match_2009] example_deliveries = []
  /\ top_sr [match_2009] example_deliveries = []
  /\ top_bowlers [match_2009] example_deliveries = []
  /\ top_vet_scorers [match_2009] example_deliveries = []
  /\ top_vet_bowlers [match_2009] example_deliveries = []
  /\ team_perf [match_2009] = [].
Proof.
  apply no_recent_match_empty; [discriminate|].
  intros m y [<-|[]] E. simpl in E. inversion E. lia.
Defined.

Lemma few_matches_empty_witness :
  venue_stats example_matches = []
  /\ toss_impact example_matches = []
  /\ top_toss_venues example_matches = [].
Proof.
  apply few_matches_empty. vm_compute. reflexivity.
Defined.


Lemma example_ids_unique : NoDup (map id example_matches).
Proof.
  simpl. constructor; [|constructor; [|constructor]]; simpl.
  - intros [H|[]]. discriminate.
  - tauto.
Qed.

Lemma top_chases_targets_witness :
  In match_2021 example_matches
  /\ field_first_won match_2021 = true
  /\ (exists d, In d example_deliveries /\ inning d = 1
                /\ match_id d = id match_2021)
  /\ 11 = sum (map total_runs
                 (filter (fun d => match_id d =? id match_2021)
                    (filter (fun d => inning d =? 1) example_deliveries))).
Proof.
  destruct (top_chases_targets example_deliveries example_matches
              example_ids_unique) as [H _].
  apply (H match_2021 11). vm_compute. auto.
Defined.

Lemma chase_win_field_first_witness :
  chase_win chase_row_p
  = won (vf_perf chase_row_p) && vp_field_first_win (vf_perf chase_row_p).
Proof.
  apply (chase_win_field_first example_matches example_deliveries).
  - exact example_ids_unique.
  - vm_compute. auto.
  - intros m [<-|[<-|[]]] E; simpl in E; try discriminate.
    split; [now right|]. simpl. intros [H|[H|[]]]; discriminate.
Defined.

Lemma vet_perf_one_row_per_appearance_witness :
  In (2, "X", "A")
    (map (fun r => (vp_match_id r, vp_player r, vp_team r))
       (vet_perf example_matches example_deliveries))
  /\ NoDup (map (fun r => (vp_match_id r, vp_player r, vp_team r))
              (vet_perf example_matches example_deliveries))
  /\ NoDup (map (fun r => (vp_match_id r, vp_player r))
              (vet_perf example_matches example_deliveries)).
Proof.
  destruct (vet_perf_one_row_per_appearance example_matches example_deliveries)
    as [Hrow [_ H]].
  destruct (H example_ids_unique) as [H1 H2].
  split.
  { apply Hrow. split; [vm_compute; auto|]. split.
    - exists delivery_2021_x. simpl. auto.
    - exists match_2021. simpl. auto. }
  split; [exact H1|]. apply H2.
  intros d1 d2 H1' H2' Em Eb. simpl in H1', H2'.
  destruct H1' as [<-|[<-|[<-|[<-|[]]]]];
    destruct H2' as [<-|[<-|[<-|[<-|[]]]]];
    simpl in *; try reflexivity; discriminate.
Defined.

(** * The power-hitters table and the excluded frames, by value *)

(** ** Power hitters *)



(** ** Players without a batting-derived team *)

(** C8: let a player never appear as batter in a match.  Then no row of the
    frames behind the team-dependent veteran aggregates pairs that player
    with that match, and the player's entry in veteran win %, veteran
    successful chases and veteran experience is the aggregate of the
    player's rows in the frame from which every row of that match has been
    removed: the pair contributes nothing to the counts, the wins, the
    percentage or the chase wins.  Every row that is counted carries the
    batting team of a delivery in which the player batted, and a player who
    never bats in any match has no entry in any of the three. *)
Theorem unmapped_player_not_counted (matches : list Match)
  (deliveries : list Delivery) (player : string) (m : Z) :
  (forall d, In d deliveries -> match_id d = m -> batter d <> player) ->
  let rows :=
    filter (fun row => String.eqb (vp_player row) player)
      (filter (fun row => negb (vp_match_id row =? m))
         (vet_perf matches deliveries)) in
  let rows_full :=
    filter (fun row => String.eqb (vp_player (vf_perf row)) player)
      (filter (fun row => negb (vp_match_id (vf_perf row) =? m))
         (vet_perf_full matches deliveries)) in
  (forall row, In row (vet_perf matches deliveries) ->
               vp_player row = player -> vp_match_id row <> m)
  /\ (forall row, In row (vet_perf_full matches deliveries) ->
                  vp_player (vf_perf row) = player ->
                  vp_match_id (vf_perf row) <> m)
  /\ (forall c, In c (vet_win_stats matches deliveries) ->
                cr_player c = player ->
                cr_matches c = count rows
                /\ cr_wins c = sum_bool (map won rows)
                /\ cr_win_pct c = pct (sum_bool (map won rows)) (count rows))
  /\ (forall n, In (player, n) (chase_stats matches deliveries) ->
                n = sum_bool (map chase_win rows_full))
  /\ (forall n, In (player, n) (experience matches deliveries) ->
                n = count rows)
  /\ (forall row, In row (vet_perf matches deliveries) ->
                  exists d, In d deliveries
                            /\ match_id d = vp_match_id row
                            /\ batter d = vp_player row
                            /\ batting_team d = vp_team row)
  /\ ((forall d, In d deliveries -> batter d <> player) ->
      ~ In player (map cr_player (vet_win_stats matches deliveries))
      /\ ~ In player (map fst (chase_stats matches deliveries))
      /\ ~ In player (map fst (experience matches deliveries))).
Proof.
  intros Hnb rows rows_full.
  assert (H1 : forall row, In row (vet_perf matches deliveries) ->
                           vp_player row = player -> vp_match_id row <> m).
  { intros row Hrow Hp Hm.
    destruct (vet_perf_batting_row _ _ _ Hrow) as [d [Hd [Em [Eb _]]]].
    apply (Hnb d Hd); congruence. }
  assert (H2 : forall row, In row (vet_perf_full matches deliveries) ->
                           vp_player (vf_perf row) = player ->
                           vp_match_id (vf_perf row) <> m).
  { intros row Hrow. apply H1. now apply vet_perf_full_batting_row. }
  assert (Erows : rows = filter (fun row => String.eqb (vp_player row) player)
                           (vet_perf matches deliveries)).
  { unfold rows. apply filter_filter_implied. intros row Hrow Hp.
    apply String.eqb_eq in Hp. apply negb_true_iff, Z.eqb_neq.
    now apply H1. }
  assert (Efull : rows_full
                  = filter (fun row => String.eqb (vp_player (vf_perf row))
                                         player)
                      (vet_perf_full matches deliveries)).
  { unfold rows_full. apply filter_filter_implied. intros row Hrow Hp.
    apply String.eqb_eq in Hp. apply negb_true_iff, Z.eqb_neq.
    now apply H2. }
  assert (Hexp : forall p n, In (p, n) (experience matches deliveries) ->
                   In p (map vp_player (vet_perf matches deliveries))
                   /\ n = count (filter (fun row => String.eqb (vp_player row) p)
                                   (vet_perf matches deliveries))).
  { intros p n Hn. unfold experience in Hn. apply head_In in Hn.
    unfold sort_values_desc in Hn. apply In_sort_by in Hn.
    unfold vet_groups in Hn.
    apply (In_agg String.eqb String.leb string_eqb_eq) in Hn as [k [Hk E]].
    inversion E; subst. split; [exact Hk | now rewrite count_map]. }
  assert (Hchase : forall p n, In (p, n) (chase_stats matches deliveries) ->
                     In p (map (fun r => vp_player (vf_perf r))
                             (vet_perf_full matches deliveries))
                     /\ n = sum_bool
                              (map chase_win
                                 (filter (fun row => String.eqb
                                                       (vp_player (vf_perf row))
                                                       p)
                                    (vet_perf_full matches deliveries)))).
  { intros p n Hn. unfold chase_stats in Hn. apply head_In in Hn.
    unfold sort_values_desc in Hn. apply In_sort_by in Hn.
    unfold chase_groups in Hn.
    apply (In_agg String.eqb String.leb string_eqb_eq) in Hn as [k [Hk E]].
    inversion E; subst. now split. }
  split; [exact H1|]. split; [exact H2|].
  split; [|split; [|split; [|split]]].
  - intros c Hc Hp. apply In_vet_win_stats in Hc as [k [_ [_ ->]]].
    simpl in Hp. subst k. cbv zeta. simpl. rewrite count_map, Erows.
    repeat split.
  - intros n Hn. apply Hchase in Hn as [_ ->]. now rewrite Efull.
  - intros n Hn. apply Hexp in Hn as [_ ->]. now rewrite Erows.
  - intros row Hrow. exact (vet_perf_batting_row _ _ _ Hrow).
  - intros Hnever.
    assert (Hno : ~ In player (map vp_player (vet_perf matches deliveries))).
    { intros Hin. apply in_map_iff in Hin as [r [Ep Hr]].
      destruct (vet_perf_batting_row _ _ _ Hr) as [d [Hd [_ [Eb _]]]].
      apply (Hnever d Hd). congruence. }
    split; [|split].
    + intros Hin. apply in_map_iff in Hin as [c [Ep Hc]].
      apply In_vet_win_stats in Hc as [k [Hk [_ ->]]]. simpl in Ep.
      subst k. now apply Hno.
    + intros Hin. apply in_map_iff in Hin as [[p n] [Ep Hn]]. simpl in Ep.
      subst p. apply Hchase in Hn as [Hp _].
      apply in_map_iff in Hp as [r [Ep Hr]]. apply Hno.
      apply in_map_iff. exists (vf_perf r). split; [exact Ep|].
      now apply vet_perf_full_batting_row.
    + intros Hin. apply in_map_iff in Hin as [[p n] [Ep Hn]]. simpl in Ep.
      subst p. apply Hexp in Hn as [Hp _]. now apply Hno.
Qed.

Lemma unmapped_player_not_counted_witness :
  In perf_row_x (vet_perf example_matches example_deliveries)
  /\ vp_match_id perf_row_x <> 1
  /\ 1 = count (filter (fun row => String.eqb (vp_player row) "X")
                  (filter (fun row => negb (vp_match_id row =? 1))
                     (vet_perf example_matches example_deliveries))).
Proof.
  assert (Hx : forall d, In d example_deliveries -> match_id d = 1 ->
                         batter d <> "X").
  { intros d Hd Eid. simpl in Hd.
    destruct Hd as [<-|[<-|[<-|[<-|[]]]]]; simpl in *; discriminate. }
  assert (Hin : In perf_row_x (vet_perf example_matches example_deliveries))
    by (vm_compute; auto).
  destruct (unmapped_player_not_counted example_matches example_deliveries
              "X" 1 Hx) as [H1 [_ [_ [_ [H5 _]]]]].
  split; [exact Hin|]. split.
  - apply H1; [exact Hin | reflexivity].
  - apply H5. vm_compute. auto.
Defined.

(** ** Matches without a year, at the level of the results *)

Lemma sorted_app_order {A : Type} (R : A -> A -> Prop) (l1 l2 : list A) :
  StronglySorted R (l1 ++ l2) ->
  forall x y, In x l1 -> In y l2 -> R x y.
Proof.
  induction l1 as [|a l1 IH]; intros Hs x y Hx Hy; [contradiction|].
  simpl in Hs. apply StronglySorted_inv in Hs as [Hs Hall].
  destruct Hx as [<-|Hx].
  - rewrite Forall_forall in Hall. apply Hall, in_or_app. now right.
  - now apply IH.
Qed.

(** A row of a sorted frame is in its head unless the head is full of rows
    that rank at least as high. *)
Lemma head_or_full {A : Type} (R : A -> A -> Prop) (n : nat) (l : list A)
  (x : A) :
  StronglySorted R l -> In x l ->
  In x (head n l)
  \/ (List.length (head n l) = n /\ forall y, In y (head n l) -> R y x).
Proof.
  unfold head. intros Hs Hx. rewrite <- (firstn_skipn n l) in Hx, Hs.
  apply in_app_or in Hx as [Hx|Hx]; [now left|]. right. split.
  - apply firstn_length_le.
    destruct (Nat.le_gt_cases n (List.length l)) as [H|H]; [exact H|].
    rewrite skipn_all2 in Hx by lia. contradiction.
  - intros y Hy. now apply (sorted_app_order R _ _ Hs).
Qed.

Lemma In_value_counts_cells (col : list (option string)) (f : string) :
  In (Some f) col ->
  In (f, count (filter (fun c => eq_cell f c) col))
    (value_counts (dropna col)).
Proof.
  intros H. apply In_value_counts. split; [now apply In_dropna|].
  now rewrite filter_dropna, count_dropna_some.
Qed.

(** C7, as stated, fails when two match rows share an id: the deliveries of
    the undated row are selected through the dated row of the same id, so
    they are in the post-2020 frame and their batter is among the top
    scorers. *)
Lemma undated_match_shared_id_counted :
  In csv_match_undated shared_id_csv
  /\ iso_date (Csv.date csv_match_undated) = None
  /\ match_id delivery_2009 = Csv.id csv_match_undated
  /\ In delivery_2009
       (post_2020_data (map (preprocess iso_date) shared_id_csv)
          [delivery_2009])
  /\ In "P"
       (map fst (top_scorers (map (preprocess iso_date) shared_id_csv)
                   [delivery_2009])).
Proof. vm_compute. repeat split; auto. Qed.

(** C7 (amended): a match row whose date cannot be parsed does not fail
    [load_data]; its year is null and the row passes neither the year > 2020
    nor the 2008-2012 filter.  When the match ids are unique, its deliveries
    are outside the post-2020 frame too, and the veteran sets and every
    year-filtered result (top scorers, power hitters, top bowlers, their
    veteran variants, team winning %) are those of the tables without the
    match and its deliveries.  The all-time queries keep it, with or without
    unique ids: its catches count for their fielder, who is among the top
    fielders unless ten fielders have at least as many catches; the row
    counts in its venue's row of the win-probability and toss-impact tables
    when the venue has 10 matches, and that venue is in the toss ranking
    unless ten venues rank at least as high; and when it is a win of the
    side fielding first with a first innings, it is among the highest
    chases unless ten chases have at least as high a target. *)
Theorem unparseable_date_null_year
  (to_datetime : string -> option Timestamp)
  (matches_csv : list Csv.Match) (deliveries : list Delivery)
  (row : Csv.Match) :
  In row matches_csv ->
  to_datetime (Csv.date row) = None ->
  let m := preprocess to_datetime row in
  let matches := map (preprocess to_datetime) matches_csv in
  let merged_data := merge_deliveries deliveries matches in
  let matches' := filter (fun x => negb (id x =? id m)) matches in
  let others := filter (fun d => negb (match_id d =? id m)) deliveries in
  let at_venue := filter (fun x => String.eqb (venue x) (venue m)) matches in
  let toss_row :=
    mkTossRow (venue m) (count at_venue)
      (sum_bool (map toss_win_match_win at_venue))
      (pct (sum_bool (map toss_win_match_win at_venue)) (count at_venue)) in
  (load_data to_datetime (Some matches_csv) (Some deliveries)
   = Some (matches, deliveries, merged_data)
   /\ In m matches /\ year m = None
   /\ ~ In m (recent_matches matches)
   /\ ~ In m (filter (fun x => between_cell (year x) 2008 2012) matches))
  /\ (NoDup (map Csv.id matches_csv) ->
      ~ In (id m) (post_2020_matches matches)
      /\ ~ In (id m) (early_seasons matches)
      /\ (forall d, In d deliveries -> match_id d = id m ->
                    ~ In d (post_2020_data matches deliveries))
      /\ early_players_bat matches deliveries
         = early_players_bat matches' others
      /\ early_players_bowl matches deliveries
         = early_players_bowl matches' others
      /\ top_scorers matches deliveries = top_scorers matches' others
      /\ top_sr matches deliveries = top_sr matches' others
      /\ top_bowlers matches deliveries = top_bowlers matches' others
      /\ top_vet_scorers matches deliveries = top_vet_scorers matches' others
      /\ top_vet_bowlers matches deliveries = top_vet_bowlers matches' others
      /\ team_perf matches = team_perf matches')
  /\ (forall d f, In d deliveries -> match_id d = id m ->
                  dismissal_kind d = Some "caught" -> fielder d = Some f ->
        In d (filter (fun x => eq_cell f (fielder x)) (catches deliveries))
        /\ (In (f, count (filter (fun x => eq_cell f (fielder x))
                            (catches deliveries)))
              (top_fielders deliveries)
            \/ (List.length (top_fielders deliveries) = 10%nat
                /\ forall x, In x (top_fielders deliveries) ->
                             count (filter (fun x => eq_cell f (fielder x))
                                      (catches deliveries)) <= snd x)))
  /\ (In m at_venue
      /\ (10 <= count at_venue ->
          In (mkVenueRow (venue m) (count at_venue)
                (sum_bool (map bat_first_win at_venue))
                (sum_bool (map field_first_win at_venue))
                (pct (sum_bool (map bat_first_win at_venue)) (count at_venue))
                (pct (sum_bool (map field_first_win at_venue))
                   (count at_venue)))
             (venue_stats matches)
          /\ In toss_row (toss_impact matches)
          /\ (In toss_row (top_toss_venues matches)
              \/ (List.length (top_toss_venues matches) = 10%nat
                  /\ forall x, In x (top_toss_venues matches) ->
                               (win_prob toss_row <= win_prob x)%Q))))
  /\ (field_first_won m = true ->
      forall d, In d deliveries -> match_id d = id m -> inning d = 1 ->
        let target :=
          sum (map (fun j => total_runs (jd_delivery j))
                 (filter (fun j => match_id (jd_delivery j) =? id m)
                    (filter (fun j => inning (jd_delivery j) =? 1)
                       merged_data))) in
        In (m, target) (chases matches merged_data)
        /\ (In (m, target) (top_chases matches merged_data)
            \/ (List.length (top_chases matches merged_data) = 10%nat
                /\ forall x, In x (top_chases matches merged_data) ->
                             target <= snd x))).
Proof.
  intros Hrow Hdate m matches merged_data matches' others at_venue toss_row.
  assert (Hm : In m matches) by (apply in_map; exact Hrow).
  assert (Hy : year m = None).
  { unfold m, preprocess. simpl. now rewrite Hdate. }
  split; [|split; [|split; [|split]]].
  - repeat split; try assumption.
    + unfold recent_matches. rewrite filter_In, Hy. simpl.
      intros [_ H]. discriminate.
    + rewrite filter_In, Hy. simpl. intros [_ H]. discriminate.
  - intros Hnd.
    assert (Hsame : forall x, In x matches -> id x = id m -> year x = None).
    { intros x Hx Eid. apply in_map_iff in Hx as [row' [<- Hrow']].
      assert (row' = row).
      { apply (NoDup_map_eq Csv.id matches_csv); assumption. }
      now subst row'. }
    assert (Hkeep : forall x, In x matches -> year x <> None ->
                              negb (id x =? id m) = true).
    { intros x Hx Hyx. apply negb_true_iff, Z.eqb_neq. intros E.
      now apply Hyx, Hsame. }
    assert (Hrecent : recent_matches matches' = recent_matches matches).
    { unfold recent_matches, matches'. apply filter_filter_implied.
      intros x Hx Hg. apply Hkeep; [exact Hx|].
      intros E. rewrite E in Hg. discriminate. }
    assert (Hbetween :
              filter (fun x => between_cell (year x) 2008 2012) matches'
              = filter (fun x => between_cell (year x) 2008 2012) matches).
    { unfold matches'. apply filter_filter_implied.
      intros x Hx Hg. apply Hkeep; [exact Hx|].
      intros E. rewrite E in Hg. discriminate. }
    assert (Hpm : post_2020_matches matches' = post_2020_matches matches).
    { unfold post_2020_matches. fold (recent_matches matches').
      fold (recent_matches matches). now rewrite Hrecent. }
    assert (Hes : early_seasons matches' = early_seasons matches).
    { unfold early_seasons. now rewrite Hbetween. }
    assert (Hpost : ~ In (id m) (post_2020_matches matches)).
    { intros H. apply In_post_2020_matches in H as [x [y [Hx [Eid [Ey _]]]]].
      rewrite (Hsame x Hx Eid) in Ey. discriminate. }
    assert (Hearly : ~ In (id m) (early_seasons matches)).
    { intros H. apply In_early_seasons in H as [x [y [Hx [Eid [Ey _]]]]].
      rewrite (Hsame x Hx Eid) in Ey. discriminate. }
    assert (Hpd : post_2020_data matches' others
                  = post_2020_data matches deliveries).
    { unfold post_2020_data, others. rewrite Hpm.
      apply filter_filter_implied. intros d _ Hd.
      apply (isin_In Z.eqb Z_eqb_eq) in Hd. apply negb_true_iff, Z.eqb_neq.
      intros E. apply Hpost. now rewrite <- E. }
    assert (Hed : filter (fun d => isin Z.eqb (match_id d)
                                     (early_seasons matches')) others
                  = filter (fun d => isin Z.eqb (match_id d)
                                       (early_seasons matches)) deliveries).
    { unfold others. rewrite Hes. apply filter_filter_implied.
      intros d _ Hd. apply (isin_In Z.eqb Z_eqb_eq) in Hd.
      apply negb_true_iff, Z.eqb_neq. intros E. apply Hearly.
      now rewrite <- E. }
    assert (Hbat : early_players_bat matches' others
                   = early_players_bat matches deliveries).
    { unfold early_players_bat. now rewrite Hed. }
    assert (Hbowl : early_players_bowl matches' others
                    = early_players_bowl matches deliveries).
    { unfold early_players_bowl. now rewrite Hed. }
    split; [exact Hpost|]. split; [exact Hearly|]. split.
    { intros d Hd Eid H. apply In_post_2020_data in H as [_ H].
      apply Hpost. apply In_post_2020_matches.
      destruct H as [x [y H]]. exists x, y. rewrite <- Eid. exact H. }
    repeat split; symmetry.
    + exact Hbat.
    + exact Hbowl.
    + unfold top_scorers, fr1_data. now rewrite Hpd, Hbat.
    + unfold top_sr, stats, stats_agg. now rewrite Hpd.
    + unfold top_bowlers, wickets, fr4_data. now rewrite Hpd, Hbowl.
    + unfold top_vet_scorers, fr1_vet_data. now rewrite Hpd, Hbat.
    + unfold top_vet_bowlers, vet_wickets, fr4_vet_data.
      now rewrite Hpd, Hbowl.
    + unfold team_perf, team_stats, wins. now rewrite Hrecent.
  - intros d f Hd Eid Hk Hf.
    assert (Hc : In d (catches deliveries)).
    { unfold catches. apply filter_In. split; [assumption|].
      now rewrite Hk. }
    split.
    + apply filter_In. split; [exact Hc|]. rewrite Hf. simpl.
      apply String.eqb_refl.
    + unfold top_fielders.
      apply (head_or_full (fun x y : string * Z => snd y <= snd x) 10 _
               (f, count (filter (fun x => eq_cell f (fielder x))
                            (catches deliveries)))).
      * apply value_counts_sorted.
      * rewrite <- (count_map fielder), <- filter_map_swap.
        apply In_value_counts_cells. rewrite <- Hf. now apply in_map.
  - assert (Hv : In m at_venue).
    { unfold at_venue. apply filter_In. split; [exact Hm|].
      apply String.eqb_refl. }
    split; [exact Hv|]. intros Hmin.
    assert (Ht : In toss_row (toss_impact matches)).
    { apply In_toss_impact. exists (venue m). split; [now apply in_map|].
      split; [exact Hmin|]. cbv zeta. fold at_venue. unfold toss_row.
      now rewrite !count_map. }
    split; [|split; [exact Ht|]].
    + apply In_venue_stats. exists (venue m). split; [now apply in_map|].
      split; [exact Hmin|]. cbv zeta. fold at_venue.
      now rewrite !count_map.
    + unfold top_toss_venues.
      apply (head_or_full (fun x y => (win_prob y <= win_prob x)%Q) 10 _
               toss_row).
      * apply sort_values_descQ_sorted.
      * unfold sort_values_descQ. now apply In_sort_by.
  - intros Hf d Hd Eid Hinn target.
    assert (Hc : In (m, target) (chases matches merged_data)).
    { apply In_chases. split; [exact Hm|]. split; [exact Hf|].
      unfold inn1_runs. apply (In_agg Z.eqb Z.leb Z_eqb_eq).
      exists (id m). split; [|reflexivity].
      destruct (merged_has_delivery deliveries matches d Hd) as [j [Hj Ej]].
      apply in_map_iff. exists j. split; [now rewrite Ej|].
      apply filter_In. split; [exact Hj|]. rewrite Ej. now apply Z.eqb_eq. }
    split; [exact Hc|]. unfold top_chases.
    apply (head_or_full (fun x y : Match * Z => snd y <= snd x) 10 _
             (m, target)).
    + apply sort_values_desc_sorted.
    + unfold sort_values_desc. now apply In_sort_by.
Qed.

Lemma unparseable_date_null_year_witness :
  year (preprocess iso_date csv_match_undated) = None
  /\ top_scorers (map (preprocess iso_date) example_csv) example_deliveries
     = top_scorers
         (filter (fun x => negb (id x =? 1))
            (map (preprocess iso_date) example_csv))
         (filter (fun d => negb (match_id d =? 1)) example_deliveries)
  /\ In (preprocess iso_date csv_match_undated, 4)
       (top_chases (map (preprocess iso_date) example_csv)
          (merge_deliveries example_deliveries
             (map (preprocess iso_date) example_csv))).
Proof.
  assert (Hnd : NoDup (map Csv.id example_csv)).
  { simpl. repeat constructor; simpl; [|tauto].
    intros [H|[]]. discriminate. }
  destruct (unparseable_date_null_year iso_date example_csv example_deliveries
              csv_match_undated (or_introl eq_refl) eq_refl)
    as [[_ [_ [Hy _]]] [Hu [_ [_ Hch]]]].
  destruct (Hu Hnd) as [_ [_ [_ [_ [_ [Hts _]]]]]].
  split; [exact Hy|]. split; [exact Hts|].
  destruct (Hch eq_refl delivery_2009 (or_introl eq_refl) eq_refl eq_refl)
    as [_ [Hin|[Hlen _]]].
  - vm_compute in Hin |- *. exact Hin.
  - vm_compute in Hlen. discriminate.
Defined.
